(** * entmoot.learning.tree_model: the regressor adapters

    A shallow embedding of [src/entmoot/learning/tree_model.py]: the classes
    [EntingRegressor] and [MisicRegressor], which wrap a gradient-boosted
    tree estimator and a distance-based uncertainty estimator.

    The file is glue over collaborators that live outside of it (the
    scikit-learn / LightGBM estimator, the uncertainty estimator, the
    tree-dictionary normaliser and the [GbmModel] class), so the embedding
    is a state-and-exception monad over a world made of
    - the heap of adapter objects, each a class tag and an attribute
      dictionary, as Python has them;
    - the state of the collaborators, opaque, which only they change;
    - the files of the working directory, which a write may fail to
      change;
    - the list of calls made to collaborators, oldest first.  *)

From Stdlib Require Import QArith.
From stdpp Require Import gmap strings list fin_maps.

Local Open Scope Z_scope.
Local Open Scope string_scope.
Local Open Scope list_scope.

(** ** Python values *)

Abbreviation loc := nat.

(** The values the adapters store and pass around. [VObj] is a reference to
    an object of a collaborator's class (an estimator, an uncertainty
    estimator, a [RandomState]); [VAdapter] is a reference to an
    [EntingRegressor] or [MisicRegressor] instance on the heap. *)
Inductive value :=
| VNone
| VInt (z : Z)
| VStr (s : string)
| VList (l : list Z)
| VObj (o : nat)
| VAdapter (a : loc).

#[global] Instance value_eq_dec : EqDecision value.
Proof. solve_decision. Defined.

(** [bool(v)], as tested by [if self.cat_idx:]. *)
Definition truthy (v : value) : bool :=
  match v with
  | VNone => false
  | VInt z => negb (Z.eqb z 0)
  | VStr s => negb (String.eqb s EmptyString)
  | VList l => negb (Nat.eqb (length l) 0)
  | VObj _ | VAdapter _ => true
  end.

(** Array-likes: the adapter never computes on their entries. *)
Definition vector := list Q.
Definition matrix := list (list Q).

(** Keyword arguments, a dictionary from names to values. *)
Abbreviation kwargs := (gmap string value).

(** ** Exceptions *)

Inductive exn :=
| AttributeError (name : string)
| TypeError (msg : string)
| Foreign (cls msg : string).

(** The name of the class of an exception. [Foreign] is an exception raised
    inside a collaborator, of whatever class it chose. *)
Definition exn_class (e : exn) : string :=
  match e with
  | AttributeError _ => "AttributeError"
  | TypeError _ => "TypeError"
  | Foreign cls _ => cls
  end.

Inductive res (A : Type) :=
| Ok (a : A)
| Raise (e : exn).
Arguments Ok {A} a.
Arguments Raise {A} e.

(** The call ended in an exception of the class named [cls]. *)
Definition raises_class {A} (r : res A) (cls : string) : Prop :=
  ∃ e, r = Raise e ∧ exn_class e = cls.

(** ** Adapter objects *)

Inductive adapter_class := EntingRegressor | MisicRegressor.

#[global] Instance adapter_class_eq_dec : EqDecision adapter_class.
Proof. solve_decision. Defined.

(** [class MisicRegressor(EntingRegressor)] *)
Definition subclass (c d : adapter_class) : bool :=
  match c, d with
  | MisicRegressor, EntingRegressor => true
  | EntingRegressor, EntingRegressor => true
  | MisicRegressor, MisicRegressor => true
  | EntingRegressor, MisicRegressor => false
  end.

Record object := Object {
  cls : adapter_class;
  attrs : gmap string value
}.

(** The result of [predict]: [mean] or the tuple [(mean, std)]. *)
Inductive prediction :=
| Mean (mean : vector)
| MeanStd (mean std : vector).

(** ** Collaborators

    Everything the adapters call and do not define. A call on a collaborator
    reads and changes the collaborators' state only, and may raise; so may
    opening and writing the file, which the operating system decides. The
    normaliser [order_tree_model_dict] and the [GbmModel] constructor are
    imported from [entmoot.learning.lgbm_processing] and
    [entmoot.learning.gbm_model]; they compute from their arguments alone. *)
Class Collaborators := {
  ext_state : Type;
  tree_dict : Type;
  ordered_dict : Type;
  gbm_model : Type;
  (* recv.set_params with the keyword arguments params *)
  est_set_params : value → kwargs → ext_state → res unit * ext_state;
  (* sklearn.base.clone(est) *)
  sk_clone : value → ext_state → res value * ext_state;
  (* recv.fit(X, y) and recv.fit(X, y, categorical_feature=c) *)
  est_fit :
    value → matrix → vector → option value → ext_state → res unit * ext_state;
  (* recv.predict(X) *)
  est_predict : value → matrix → ext_state → res vector * ext_state;
  (* recv._Booster.dump_model() *)
  booster_dump_model : value → ext_state → res tree_dict * ext_state;
  (* the text json.dump(d, f, indent=i, sort_keys=s) writes to f *)
  json_dump : tree_dict → Z → bool → string;
  (* with open(path, 'w') as f: json.dump(d, f, indent=i, sort_keys=s).
     None: the block completes, the text is in the file. Some (x, None):
     open raised x, the file is as it was. Some (x, Some part): the file
     was opened and x was raised with only part written *)
  fs_json_dump :
    string → tree_dict → Z → bool → ext_state →
    option (exn * option string) * ext_state;
  (* order_tree_model_dict(d, cat_column=c) *)
  order_tree_model_dict : tree_dict → value → res ordered_dict;
  (* GbmModel(ordered) *)
  GbmModel : ordered_dict → res gbm_model;
  (* recv.update(X, y, cat_column=c) and recv.update(X, y, gbm_model, cat_column=c) *)
  std_update :
    value → matrix → vector → option gbm_model → value →
    ext_state → res unit * ext_state;
  (* recv.predict(X, scaled=s) *)
  std_predict : value → matrix → bool → ext_state → res vector * ext_state
}.

Section Adapter.
Context {collab : Collaborators}.

(** The calls that leave the adapter, with their arguments. *)
Inductive event :=
| CallSetParams (recv : value) (params : kwargs)
| CallClone (est : value)
| CallFit (recv : value) (X : matrix) (y : vector)
    (categorical_feature : option value)
| CallPredict (recv : value) (X : matrix)
| CallDumpModel (recv : value)
| WriteFile (path content : string)
| CallOrderTreeModelDict (d : tree_dict) (cat_column : value)
| CallGbmModel (ordered : ordered_dict)
| CallStdUpdate (recv : value) (X : matrix) (y : vector)
    (gbm : option gbm_model) (cat_column : value)
| CallStdPredict (recv : value) (X : matrix) (scaled : bool).

Record world := World {
  heap : list object;
  ext : ext_state;
  files : gmap string string;
  calls : list event
}.

Definition set_heap (h : list object) (w : world) : world :=
  World h (ext w) (files w) (calls w).
Definition set_ext (e : ext_state) (w : world) : world :=
  World (heap w) e (files w) (calls w).
Definition set_files (f : gmap string string) (w : world) : world :=
  World (heap w) (ext w) f (calls w).
Definition set_calls (c : list event) (w : world) : world :=
  World (heap w) (ext w) (files w) c.

(** ** The monad: state that survives an exception *)

Definition M (A : Type) : Type := world → res A * world.

#[global] Instance M_ret : MRet M := λ A a w, (Ok a, w).
#[global] Instance M_bind : MBind M := λ A B f m w,
  match m w with
  | (Ok a, w') => f a w'
  | (Raise e, w') => (Raise e, w')
  end.

Definition raise {A} (e : exn) : M A := λ w, (Raise e, w).

(** [self.name] *)
Definition getattr (self : loc) (name : string) : M value := λ w,
  match heap w !! self with
  | Some o =>
      match attrs o !! name with
      | Some v => (Ok v, w)
      | None => (Raise (AttributeError name), w)
      end
  | None => (Raise (AttributeError name), w)
  end.

(** [self.name = v] *)
Definition store (self : loc) (name : string) (v : value) (w : world)
    : world :=
  set_heap
    (alter (λ o, Object (cls o) (<[name := v]> (attrs o))) self (heap w)) w.

Definition setattr (self : loc) (name : string) (v : value) : M unit := λ w,
  (Ok tt, store self name v w).

(** [v.name] for a value that may or may not be an adapter. *)
Definition getattr_value (v : value) (name : string) : M value :=
  match v with
  | VAdapter a => getattr a name
  | _ => raise (AttributeError name)
  end.

(** [isinstance(v, c)] for an adapter class [c]. *)
Definition instance_of (h : list object) (v : value) (c : adapter_class)
    : bool :=
  match v with
  | VAdapter a =>
      match h !! a with
      | Some o => subclass (cls o) c
      | None => false
      end
  | _ => false
  end.

Definition isinstance (v : value) (c : adapter_class) : M bool := λ w,
  (Ok (instance_of (heap w) v c), w).

(** Looking up a method or attribute [name] on the receiver of a call: None
    and the built-in scalars and lists have none of the names used here;
    an object answers the call itself. An adapter stored where an
    estimator is expected is taken as one more object of the collaborators:
    the answer of the call is theirs to give, and what the adapter's own
    method would do to the heap is not followed. The runs of [fit] and its
    frame are therefore stated for estimators that are not adapters. *)
Definition is_object (v : value) : bool :=
  match v with
  | VObj _ | VAdapter _ => true
  | _ => false
  end.

Definition lookup_method (recv : value) (name : string) : M unit :=
  if is_object recv then mret tt else raise (AttributeError name).

Definition record (ev : event) (w : world) : world :=
  set_calls (calls w ++ [ev]) w.

Definition log (ev : event) : M unit := λ w, (Ok tt, record ev w).

Definition foreign {A} (f : ext_state → res A * ext_state) : M A := λ w,
  let '(r, e) := f (ext w) in (r, set_ext e w).

Definition lift {A} (r : res A) : M A := λ w, (r, w).

(** [with open(path, 'w') as f:
       json.dump(d, f, indent=indent, sort_keys=sort_keys)].
    The attempt is recorded with the text it is to write. The block
    completes with that text at [path], or it raises: [open] refused and
    the files are as they were, or the file was opened and holds the part
    written before the exception. *)
Definition write_json (path : string) (d : tree_dict) (indent : Z)
    (sort_keys : bool) : M unit := λ w,
  match fs_json_dump path d indent sort_keys (ext w) with
  | (None, e) =>
      (Ok tt,
       set_ext e
         (set_files (<[path := json_dump d indent sort_keys]> (files w))
            (record (WriteFile path (json_dump d indent sort_keys)) w)))
  | (Some (x, None), e) =>
      (Raise x,
       set_ext e (record (WriteFile path (json_dump d indent sort_keys)) w))
  | (Some (x, Some part), e) =>
      (Raise x,
       set_ext e
         (set_files (<[path := part]> (files w))
            (record (WriteFile path (json_dump d indent sort_keys)) w)))
  end.

(** ** Calls on collaborators *)

(** [recv.set_params] with keyword arguments [params], once the method has
    been looked up. *)
Definition call_set_params (recv : value) (params : kwargs) : M unit :=
  log (CallSetParams recv params);; foreign (est_set_params recv params).

(** [clone(est)] *)
Definition clone (est : value) : M value :=
  log (CallClone est);; foreign (sk_clone est).

(** [recv.fit(X, y)] or [recv.fit(X, y, categorical_feature=c)] *)
Definition call_fit (recv : value) (X : matrix) (y : vector)
    (categorical_feature : option value) : M unit :=
  log (CallFit recv X y categorical_feature);;
  foreign (est_fit recv X y categorical_feature).

(** [recv.predict(X)] *)
Definition call_predict (recv : value) (X : matrix) : M vector :=
  lookup_method recv "predict";;
  log (CallPredict recv X);;
  foreign (est_predict recv X).

(** [recv._Booster.dump_model()] *)
Definition call_dump_model (recv : value) : M tree_dict :=
  lookup_method recv "_Booster";;
  log (CallDumpModel recv);;
  foreign (booster_dump_model recv).

(** [recv.update(X, y, cat_column=c)] or
    [recv.update(X, y, gbm_model, cat_column=c)] *)
Definition call_std_update (recv : value) (X : matrix) (y : vector)
    (gbm : option gbm_model) (cat_column : value) : M unit :=
  log (CallStdUpdate recv X y gbm cat_column);;
  foreign (std_update recv X y gbm cat_column).

(** [recv.predict(X, scaled=scaled)] *)
Definition call_std_predict (recv : value) (X : matrix) (scaled : bool)
    : M vector :=
  lookup_method recv "predict";;
  log (CallStdPredict recv X scaled);;
  foreign (std_predict recv X scaled).

(** ** EntingRegressor *)

(** [EntingRegressor.__init__(self, base_estimator=None,
    std_estimator=None, random_state=None, cat_idx=[])] *)
Definition EntingRegressor_init (self : loc)
    (base_estimator std_estimator random_state cat_idx : value) : M unit :=
  setattr self "random_state" random_state;;
  setattr self "base_estimator" base_estimator;;
  setattr self "std_estimator" std_estimator;;
  setattr self "cat_idx" cat_idx;;
  (* check if base_estimator is EntingRegressor *)
  b ← isinstance base_estimator EntingRegressor;
  if b : bool then
    inner ← getattr_value base_estimator "base_estimator";
    setattr self "base_estimator" inner;;
    inner_std ← getattr_value base_estimator "std_estimator";
    setattr self "std_estimator" inner_std
  else mret tt.

(** [EntingRegressor.fit(self, X, y)]. The [warnings] context manager
    around the last statement only filters warnings; it lets exceptions
    through. *)
Definition EntingRegressor_fit (self : loc) (X : matrix) (y : vector)
    : M unit :=
  base_estimator ← getattr self "base_estimator";
  (* suppress lgbm output *)
  lookup_method base_estimator "set_params";;
  random_state ← getattr self "random_state";
  call_set_params base_estimator
    {[ "random_state" := random_state; "verbose" := VInt (-1) ]};;
  (* clone base_estimator *)
  regressor ← clone base_estimator;
  setattr self "regressor_" regressor;;
  (* update std estimator *)
  std_estimator ← getattr self "std_estimator";
  lookup_method std_estimator "update";;
  cat_column ← getattr self "cat_idx";
  call_std_update std_estimator X y None cat_column;;
  (* update tree model regressor *)
  cat_idx ← getattr self "cat_idx";
  if truthy cat_idx then
    regressor_ ← getattr self "regressor_";
    lookup_method regressor_ "fit";;
    categorical_feature ← getattr self "cat_idx";
    call_fit regressor_ X y (Some categorical_feature)
  else
    regressor_ ← getattr self "regressor_";
    lookup_method regressor_ "fit";;
    call_fit regressor_ X y None.

(** [EntingRegressor.set_params(self, **params)] *)
Definition set_params (self : loc) (params : kwargs) : M unit :=
  let params :=
    if decide ("min_child_samples" ∈ dom params) then params
    else <["min_child_samples" := VInt 2]> params in
  base_estimator ← getattr self "base_estimator";
  lookup_method base_estimator "set_params";;
  call_set_params base_estimator params.

(** [EntingRegressor.predict(self, X, return_std=False, scaled=True)] *)
Definition predict (self : loc) (X : matrix) (return_std scaled : bool)
    : M prediction :=
  regressor_ ← getattr self "regressor_";
  mean ← call_predict regressor_ X;
  if return_std then
    std_estimator ← getattr self "std_estimator";
    std ← call_std_predict std_estimator X scaled;
    mret (MeanStd mean std)
  else
    (* return the mean *)
    mret (Mean mean).

(** [EntingRegressor.get_gbm_model(self)]. The imports at its head bring
    in [order_tree_model_dict], [GbmModel] and [json]. *)
Definition get_gbm_model (self : loc) : M gbm_model :=
  regressor_ ← getattr self "regressor_";
  original_tree_model_dict ← call_dump_model regressor_;
  write_json "tree_dict_next.json" original_tree_model_dict 4 false;;
  cat_column ← getattr self "cat_idx";
  log (CallOrderTreeModelDict original_tree_model_dict cat_column);;
  ordered_tree_model_dict ←
    lift (order_tree_model_dict original_tree_model_dict cat_column);
  log (CallGbmModel ordered_tree_model_dict);;
  lift (GbmModel ordered_tree_model_dict).

(** ** MisicRegressor(EntingRegressor)

    [set_params], [predict] and [get_gbm_model] are inherited. *)

(** [MisicRegressor.__init__(self, base_estimator=None,
    std_estimator=None, random_state=None, cat_idx=[])] *)
Definition MisicRegressor_init (self : loc)
    (base_estimator std_estimator random_state cat_idx : value) : M unit :=
  setattr self "random_state" random_state;;
  setattr self "base_estimator" base_estimator;;
  setattr self "std_estimator" std_estimator;;
  setattr self "cat_idx" cat_idx;;
  b ← isinstance base_estimator MisicRegressor;
  if b : bool then
    inner ← getattr_value base_estimator "base_estimator";
    setattr self "base_estimator" inner;;
    inner_std ← getattr_value base_estimator "std_estimator";
    setattr self "std_estimator" inner_std
  else mret tt.

(** [MisicRegressor.fit(self, X, y)] *)
Definition MisicRegressor_fit (self : loc) (X : matrix) (y : vector)
    : M unit :=
  base_estimator ← getattr self "base_estimator";
  (* suppress lgbm output *)
  lookup_method base_estimator "set_params";;
  random_state ← getattr self "random_state";
  call_set_params base_estimator
    {[ "random_state" := random_state; "verbose" := VInt (-1) ]};;
  (* clone base_estimator *)
  regressor ← clone base_estimator;
  setattr self "regressor_" regressor;;
  (* update tree model regressor *)
  cat_idx ← getattr self "cat_idx";
  (if truthy cat_idx then
    regressor_ ← getattr self "regressor_";
    lookup_method regressor_ "fit";;
    categorical_feature ← getattr self "cat_idx";
    call_fit regressor_ X y (Some categorical_feature)
  else
    regressor_ ← getattr self "regressor_";
    lookup_method regressor_ "fit";;
    call_fit regressor_ X y None);;
  gbm_model ← get_gbm_model self;
  (* update std estimator *)
  std_estimator ← getattr self "std_estimator";
  lookup_method std_estimator "update";;
  cat_column ← getattr self "cat_idx";
  call_std_update std_estimator X y (Some gbm_model) cat_column.

(** ** Instantiation and method dispatch *)

(** A new object of class [c] with attributes [m], at the next address. *)
Definition alloc (c : adapter_class) (m : gmap string value) (w : world)
    : world :=
  set_heap (heap w ++ [Object c m]) w.

(** [C(base_estimator, std_estimator, random_state, cat_idx)]: a new
    object of class [C] with no attributes, then [C.__init__]. *)
Definition new (c : adapter_class)
    (base_estimator std_estimator random_state cat_idx : value) : M loc :=
  λ w,
    let self := length (heap w) in
    let init :=
      match c with
      | EntingRegressor => EntingRegressor_init
      | MisicRegressor => MisicRegressor_init
      end in
    (init self base_estimator std_estimator random_state cat_idx ;; mret self)
      (alloc c ∅ w).

(** The default of the [cat_idx] parameter. *)
Definition default_cat_idx : value := VList [].

(** What an observer reads off a world: the class of the object at [self]
    and the value of one of its attributes. *)
Definition class_of (w : world) (self : loc) : option adapter_class :=
  cls <$> heap w !! self.

Definition attr (w : world) (self : loc) (name : string) : option value :=
  heap w !! self ≫= λ o, attrs o !! name.

(** [self.fit(X, y)], by the class of [self]. *)
Definition fit (self : loc) (X : matrix) (y : vector) : M unit := λ w,
  match cls <$> heap w !! self with
  | Some MisicRegressor => MisicRegressor_fit self X y w
  | _ => EntingRegressor_fit self X y w
  end.

(** ** Vocabulary of the specification *)

(** The attribute [name] of [self], None when it is not set. *)
Definition stored (w : world) (self : loc) (name : string) : value :=
  default VNone (attr w self name).

(** The options [fit] sets on the base estimator. *)
Definition fit_kwargs (random_state : value) : kwargs :=
  {[ "random_state" := random_state; "verbose" := VInt (-1) ]}.

(** The [categorical_feature] argument of the clone's [fit], if passed. *)
Definition passed_categorical (cat_idx : value) : option value :=
  if truthy cat_idx then Some cat_idx else None.

(** Variant A, a complete fit: configure, clone, update the uncertainty
    estimator from the data alone, fit the clone. *)
Definition EntingRegressor_fit_calls (b rs std cat r : value)
    (X : matrix) (y : vector) : list event :=
  [ CallSetParams b (fit_kwargs rs);
    CallClone b;
    CallStdUpdate std X y None cat;
    CallFit r X y (passed_categorical cat) ].

(** What [get_gbm_model] does on the way to the exported structure. *)
Definition export_calls (r : value) (d : tree_dict) (cat : value)
    (o : ordered_dict) : list event :=
  [ CallDumpModel r;
    WriteFile "tree_dict_next.json" (json_dump d 4 false);
    CallOrderTreeModelDict d cat;
    CallGbmModel o ].

(** Variant B, a complete fit: configure, clone, fit the clone, export
    its structure, update the uncertainty estimator with it. *)
Definition MisicRegressor_fit_calls (b rs std cat r : value)
    (d : tree_dict) (o : ordered_dict) (g : gbm_model)
    (X : matrix) (y : vector) : list event :=
  [ CallSetParams b (fit_kwargs rs);
    CallClone b;
    CallFit r X y (passed_categorical cat) ] ++
  export_calls r d cat o ++
  [ CallStdUpdate std X y (Some g) cat ].

(** The world a complete run of Variant A's [fit] leaves. *)
Definition EntingRegressor_fitted (self : loc) (X : matrix) (y : vector)
    (w : world) (b rs std cat r : value)
    (e1 e2 e3 e4 : ext_state) : world :=
  set_ext e4 (record (CallFit r X y (passed_categorical cat))
    (set_ext e3 (record (CallStdUpdate std X y None cat)
      (store self "regressor_" r
        (set_ext e2 (record (CallClone b)
          (set_ext e1 (record (CallSetParams b (fit_kwargs rs)) w)))))))).

(** The world a complete run of Variant B's [fit] leaves. *)
Definition MisicRegressor_fitted (self : loc) (X : matrix) (y : vector)
    (w : world) (b rs std cat r : value)
    (d : tree_dict) (od : ordered_dict) (g : gbm_model)
    (e1 e2 e3 e4 e5 e6 : ext_state) : world :=
  set_ext e6 (record (CallStdUpdate std X y (Some g) cat)
    (record (CallGbmModel od)
      (record (CallOrderTreeModelDict d cat)
        (set_ext e5
          (set_files
            (<["tree_dict_next.json" := json_dump d 4 false]> (files w))
            (record (WriteFile "tree_dict_next.json" (json_dump d 4 false))
              (set_ext e4 (record (CallDumpModel r)
                (set_ext e3 (record (CallFit r X y (passed_categorical cat))
                  (store self "regressor_" r
                    (set_ext e2 (record (CallClone b)
                      (set_ext e1
                        (record (CallSetParams b (fit_kwargs rs)) w)
                      )))))))))))))).

(** The attributes [__init__] sets before it looks at [base_estimator]. *)
Definition fresh_attrs (base std rs cat : value) : gmap string value :=
  <["cat_idx" := cat]> (<["std_estimator" := std]>
    (<["base_estimator" := base]> (<["random_state" := rs]> ∅))).

(** The operations of an adapter other than [fit]. *)
Inductive other_op :=
| OpSetParams (params : kwargs)
| OpPredict (X : matrix) (return_std scaled : bool)
| OpGetGbmModel.

Definition run_other (self : loc) (w : world) (op : other_op) : world :=
  match op with
  | OpSetParams params => (set_params self params w).2
  | OpPredict X return_std scaled => (predict self X return_std scaled w).2
  | OpGetGbmModel => (get_gbm_model self w).2
  end.

(** The attributes [__init__] sets, with a base estimator that can be
    called. *)
Definition configured (w : world) (self : loc) (b rs std cat : value)
    : Prop :=
  attr w self "base_estimator" = Some b ∧ is_object b = true ∧
  attr w self "random_state" = Some rs ∧
  attr w self "std_estimator" = Some std ∧
  attr w self "cat_idx" = Some cat.

(** Variant A: a call of the clone's [fit] is the last call made and
    comes right after the update of the uncertainty estimator, which is
    never given a tree structure. *)
Definition update_before_fit (std cat : value) (X : matrix) (y : vector)
    (ev : list event) : Prop :=
  (∀ pre post recv X' y' cf,
     ev = pre ++ CallFit recv X' y' cf :: post →
     post = [] ∧ X' = X ∧ y' = y ∧ cf = passed_categorical cat ∧
     ∃ b kw,
       pre = [CallSetParams b kw; CallClone b;
              CallStdUpdate std X y None cat]) ∧
  (∀ recv X' y' g c', CallStdUpdate recv X' y' g c' ∈ ev → g = None).

(** Variant B: an update of the uncertainty estimator is the last call
    made, comes after the clone's [fit] and the export, and is given the
    exported structure. *)
Definition update_after_export (std cat : value) (X : matrix) (y : vector)
    (ev : list event) : Prop :=
  ∀ pre post recv X' y' g c',
    ev = pre ++ CallStdUpdate recv X' y' g c' :: post →
    post = [] ∧ recv = std ∧ X' = X ∧ y' = y ∧ c' = cat ∧
    ∃ b kw r d od gm,
      g = Some gm ∧
      order_tree_model_dict d cat = Ok od ∧ GbmModel od = Ok gm ∧
      pre = [CallSetParams b kw; CallClone b;
             CallFit r X y (passed_categorical cat)] ++
            export_calls r d cat od.

(** The exception [e] is one a collaborator, or the writing of the file,
    raised. *)
Inductive raised_upstream (e : exn) : Prop :=
| up_set_params recv params x x' :
    est_set_params recv params x = (Raise e, x') → raised_upstream e
| up_clone est x x' :
    sk_clone est x = (Raise e, x') → raised_upstream e
| up_fit recv X y cf x x' :
    est_fit recv X y cf x = (Raise e, x') → raised_upstream e
| up_predict recv X x x' :
    est_predict recv X x = (Raise e, x') → raised_upstream e
| up_dump_model recv x x' :
    booster_dump_model recv x = (Raise e, x') → raised_upstream e
| up_json_dump path d indent sort_keys part x x' :
    fs_json_dump path d indent sort_keys x = (Some (e, part), x') →
    raised_upstream e
| up_order d cat :
    order_tree_model_dict d cat = Raise e → raised_upstream e
| up_GbmModel od :
    GbmModel od = Raise e → raised_upstream e
| up_std_update recv X y g cat x x' :
    std_update recv X y g cat x = (Raise e, x') → raised_upstream e
| up_std_predict recv X scaled x x' :
    std_predict recv X scaled x = (Raise e, x') → raised_upstream e.

(** The exception [e] is the [AttributeError] of a failed attribute or
    method lookup, or one a collaborator or the file write raised. *)
Definition passed_through (e : exn) : Prop :=
  (∃ name, e = AttributeError name) ∨ raised_upstream e.

End Adapter.

Arguments store : simpl never.
Arguments alloc : simpl never.
Arguments record : simpl never.
Arguments attr : simpl never.
Arguments class_of : simpl never.
Arguments instance_of : simpl never.

(** ** A test double

    Collaborators simple enough to run: the state counts the objects
    allocated so far, [clone] allocates the next one, [fit] rejects
    mismatched row counts the way the real estimator does, the update of
    the uncertainty estimator rejects an empty data set, predictions are
    one number per row. *)
Module Double.

Definition fit_double (X : matrix) (y : vector) : res unit :=
  if Nat.eqb (length X) (length y) then Ok tt
  else Raise (Foreign "ValueError" "inconsistent numbers of samples").

Definition update_double (X : matrix) : res unit :=
  if Nat.eqb (length X) 0 then Raise (Foreign "ValueError" "no samples")
  else Ok tt.

#[export] Instance collaborators : Collaborators := {|
  ext_state := nat;
  tree_dict := string;
  ordered_dict := string;
  gbm_model := string;
  est_set_params := λ _ _ e, (Ok tt, e);
  sk_clone := λ _ e, (Ok (VObj (S e)), S e);
  est_fit := λ _ X y _ e, (fit_double X y, e);
  est_predict := λ _ X e, (Ok (map (λ _, 0%Q) X), e);
  booster_dump_model := λ _ e, (Ok "{tree_info: []}", e);
  json_dump := λ d _ _, d;
  fs_json_dump := λ _ _ _ _ e, (None, e);
  order_tree_model_dict := λ d _, Ok d;
  GbmModel := λ o, Ok o;
  std_update := λ _ X _ _ _ e, (update_double X, e);
  std_predict := λ _ X _ e, (Ok (map (λ _, 1%Q) X), e)
|}.

(** Two foreign objects: estimator 0 and uncertainty estimator 1. *)
Definition w0 : world := World [] 1%nat ∅ [].

Definition X0 : matrix := [[1%Q; 2%Q]; [3%Q; 4%Q]; [5%Q; 6%Q]].
Definition y0 : vector := [1%Q; 0%Q; 1%Q].

(** The world after [EntingRegressor(VObj 0, VObj 1, None, [])]. *)
Definition w_enting : world :=
  (new EntingRegressor (VObj 0) (VObj 1) VNone default_cat_idx w0).2.

(** The world after [MisicRegressor(VObj 0, VObj 1, 7, [1])]. *)
Definition w_misic : world :=
  (new MisicRegressor (VObj 0) (VObj 1) (VInt 7) (VList [1]) w0).2.

(** An adapter built with no collaborators at all: [EntingRegressor()]. *)
Definition w_bare : world :=
  (new EntingRegressor VNone VNone VNone default_cat_idx w0).2.

(** The two adapters after [fit(X0, y0)]. *)
Definition w_enting_fitted : world := (fit 0%nat X0 y0 w_enting).2.
Definition w_misic_fitted : world := (fit 0%nat X0 y0 w_misic).2.

(** A target vector one row short of [X0]. *)
Definition y_short : vector := [1%Q; 0%Q].

End Double.

(** ** A test double whose booster cannot be dumped *)
Module Faulty.

#[export] Instance collaborators : Collaborators := {|
  ext_state := nat;
  tree_dict := string;
  ordered_dict := string;
  gbm_model := string;
  est_set_params := λ _ _ e, (Ok tt, e);
  sk_clone := λ _ e, (Ok (VObj (S e)), S e);
  est_fit := λ _ X y _ e, (Double.fit_double X y, e);
  est_predict := λ _ X e, (Ok (map (λ _, 0%Q) X), e);
  booster_dump_model := λ _ e, (Raise (Foreign "LightGBMError" "no booster"), e);
  json_dump := λ d _ _, d;
  fs_json_dump := λ _ _ _ _ e, (None, e);
  order_tree_model_dict := λ d _, Ok d;
  GbmModel := λ o, Ok o;
  std_update := λ _ _ _ _ _ e, (Ok tt, e);
  std_predict := λ _ X _ e, (Ok (map (λ _, 1%Q) X), e)
|}.

(** [EntingRegressor(VObj 0, VObj 1, None, [])], fitted on [(X0, y0)]. *)
Definition w_fitted : world :=
  (fit 0%nat Double.X0 Double.y0
     (new EntingRegressor (VObj 0) (VObj 1) VNone default_cat_idx
        (World [] 1%nat ∅ [])).2).2.

End Faulty.

(** ** A test double whose working directory cannot be written

    As [Double], with a directory in the way of [tree_dict_next.json]:
    [open] raises, as the interpreter does. *)
Module ReadOnly.

#[export] Instance collaborators : Collaborators := {|
  ext_state := nat;
  tree_dict := string;
  ordered_dict := string;
  gbm_model := string;
  est_set_params := λ _ _ e, (Ok tt, e);
  sk_clone := λ _ e, (Ok (VObj (S e)), S e);
  est_fit := λ _ X y _ e, (Double.fit_double X y, e);
  est_predict := λ _ X e, (Ok (map (λ _, 0%Q) X), e);
  booster_dump_model := λ _ e, (Ok "{tree_info: []}", e);
  json_dump := λ d _ _, d;
  fs_json_dump := λ path _ _ _ e,
    (Some (Foreign "IsADirectoryError" path, None), e);
  order_tree_model_dict := λ d _, Ok d;
  GbmModel := λ o, Ok o;
  std_update := λ _ _ _ _ _ e, (Ok tt, e);
  std_predict := λ _ X _ e, (Ok (map (λ _, 1%Q) X), e)
|}.

(** [EntingRegressor(VObj 0, VObj 1, None, [])], fitted on [(X0, y0)]. *)
Definition w_fitted : world :=
  (fit 0%nat Double.X0 Double.y0
     (new EntingRegressor (VObj 0) (VObj 1) VNone default_cat_idx
        (World [] 1%nat ∅ [])).2).2.

(** [MisicRegressor(VObj 0, None, 7, [1])], not fitted. *)
Definition w_misic_no_std : world :=
  (new MisicRegressor (VObj 0) VNone (VInt 7) (VList [1])
     (World [] 1%nat ∅ [])).2.

End ReadOnly.

Module DoubleMore.
Import Double.

(** [EntingRegressor(VObj 0, None, None, [])] after a [fit] that stopped
    at the update of the missing uncertainty estimator. *)
Definition w_no_std : world :=
  (fit 0%nat X0 y0
     (new EntingRegressor (VObj 0) VNone VNone default_cat_idx w0).2).2.

End DoubleMore.

(** * Properties *)

Section Properties.
Context {collab : Collaborators}.

Implicit Types (w : world) (self a : loc) (o : object) (v b s : value).
Implicit Types (X : matrix) (y : vector) (c : adapter_class).

(** ** Reading and writing attributes *)

Lemma attr_Some w self name v :
  attr w self name = Some v ↔
  ∃ o, heap w !! self = Some o ∧ attrs o !! name = Some v.
Proof.
  unfold attr. destruct (heap w !! self) as [o|]; simpl.
  - split; [eauto | by intros (? & [= <-] & ?)].
  - split; [done | by intros (? & ? & ?)].
Qed.

Lemma attr_allocated w self name v :
  attr w self name = Some v → (self < length (heap w))%nat.
Proof. intros (o & Ho & _)%attr_Some. by eapply lookup_lt_Some. Qed.

Lemma getattr_attr w self name :
  getattr self name w =
  (match attr w self name with
   | Some v => Ok v
   | None => Raise (AttributeError name)
   end, w).
Proof.
  unfold getattr, attr. destruct (heap w !! self) as [o|]; simpl; [|done].
  by destruct (attrs o !! name).
Qed.

Lemma attr_store w self name v self' name' :
  attr (store self name v w) self' name' =
  if decide (self = self' ∧ name = name' ∧ self < length (heap w))%nat
  then Some v else attr w self' name'.
Proof.
  unfold attr, store; simpl.
  destruct (decide (self = self')) as [<-|Hne].
  - rewrite list_lookup_alter_eq.
    destruct (heap w !! self) as [o|] eqn:Ho; simpl.
    + apply lookup_lt_Some in Ho.
      destruct (decide (name = name')) as [<-|Hn].
      * rewrite lookup_insert_eq. by rewrite decide_True.
      * rewrite lookup_insert_ne by done. rewrite decide_False; tauto.
    + apply lookup_ge_None in Ho. rewrite decide_False; [done | lia].
  - rewrite list_lookup_alter_ne by done. rewrite decide_False; tauto.
Qed.

Lemma attr_store_eq w self name v :
  (self < length (heap w))%nat → attr (store self name v w) self name = Some v.
Proof. intros. rewrite attr_store. by rewrite decide_True. Qed.

Lemma attr_store_ne w self name v self' name' :
  self ≠ self' ∨ name ≠ name' →
  attr (store self name v w) self' name' = attr w self' name'.
Proof. intros. rewrite attr_store. rewrite decide_False; tauto. Qed.

Lemma class_of_store w self name v self' :
  class_of (store self name v w) self' = class_of w self'.
Proof.
  unfold class_of, store; simpl.
  destruct (decide (self = self')) as [<-|Hne].
  - rewrite list_lookup_alter_eq. by destruct (heap w !! self).
  - by rewrite list_lookup_alter_ne.
Qed.

Lemma length_heap_store w self name v :
  length (heap (store self name v w)) = length (heap w).
Proof. unfold store; simpl. apply length_alter. Qed.

Lemma instance_of_class_of w v c :
  instance_of (heap w) v c =
  match v with
  | VAdapter a =>
      match class_of w a with Some d => subclass d c | None => false end
  | _ => false
  end.
Proof.
  unfold instance_of, class_of. destruct v; try done.
  by destruct (heap w !! a).
Qed.


(** ** Allocation *)

Lemma store_alloc w c m name v :
  store (length (heap w)) name v (alloc c m w) = alloc c (<[name := v]> m) w.
Proof.
  unfold store, alloc, set_heap; simpl. f_equal.
  replace (length (heap w)) with (length (heap w) + 0)%nat at 1 by lia.
  by rewrite alter_app_r.
Qed.

Lemma attr_alloc w c m self name :
  attr (alloc c m w) self name =
  if decide (self = length (heap w)) then m !! name else attr w self name.
Proof.
  unfold attr, alloc; simpl. case_decide as Hs.
  - subst. rewrite lookup_app_r by lia. by rewrite Nat.sub_diag.
  - destruct (decide (self < length (heap w))%nat).
    + by rewrite lookup_app_l.
    + rewrite !lookup_ge_None_2; [done | lia |]. rewrite length_app; simpl; lia.
Qed.

Lemma class_of_alloc w c m self :
  class_of (alloc c m w) self =
  if decide (self = length (heap w)) then Some c else class_of w self.
Proof.
  unfold class_of, alloc; simpl. case_decide as Hs.
  - subst. rewrite lookup_app_r by lia. by rewrite Nat.sub_diag.
  - destruct (decide (self < length (heap w))%nat).
    + by rewrite lookup_app_l.
    + rewrite !lookup_ge_None_2; [done | lia |]. rewrite length_app; simpl; lia.
Qed.

Lemma instance_of_alloc w c m v d :
  instance_of (heap (alloc c m w)) v d =
  match v with
  | VAdapter a =>
      if decide (a = length (heap w)) then subclass c d
      else instance_of (heap w) v d
  | _ => false
  end.
Proof.
  rewrite !instance_of_class_of. destruct v; try done.
  rewrite class_of_alloc. by case_decide.
Qed.

Lemma class_of_allocated w self c :
  class_of w self = Some c → (self < length (heap w))%nat.
Proof.
  unfold class_of. destruct (heap w !! self) eqn:Ho; [|done].
  intros _. by eapply lookup_lt_Some.
Qed.


(** ** Construction *)

Lemma subclass_refl c : subclass c c = true.
Proof. by destruct c. Qed.

Lemma fresh_attrs_lookup base std rs cat :
  fresh_attrs base std rs cat !! "base_estimator" = Some base ∧
  fresh_attrs base std rs cat !! "std_estimator" = Some std ∧
  fresh_attrs base std rs cat !! "random_state" = Some rs ∧
  fresh_attrs base std rs cat !! "cat_idx" = Some cat ∧
  fresh_attrs base std rs cat !! "regressor_" = None.
Proof. unfold fresh_attrs. repeat split; by simplify_map_eq. Qed.

Lemma new_unwrap c d a std rs cat w b s :
  class_of w a = Some d → subclass d c = true →
  attr w a "base_estimator" = Some b → attr w a "std_estimator" = Some s →
  new c (VAdapter a) std rs cat w =
  (Ok (length (heap w)),
   alloc c (<["std_estimator" := s]> (<["base_estimator" := b]>
     (fresh_attrs (VAdapter a) std rs cat))) w).
Proof.
  intros Hc Hsub Hb Hs.
  pose proof (class_of_allocated _ _ _ Hc) as Hlt.
  unfold new, fresh_attrs.
  destruct c; unfold EntingRegressor_init, MisicRegressor_init;
    unfold setattr, isinstance, getattr_value, mbind, M_bind, mret, M_ret;
    cbn beta iota; rewrite !store_alloc, instance_of_alloc;
    rewrite decide_False by lia;
    rewrite instance_of_class_of, Hc, Hsub;
    rewrite getattr_attr, attr_alloc, decide_False, Hb by lia;
    cbn beta iota; rewrite store_alloc;
    rewrite getattr_attr, attr_alloc, decide_False, Hs by lia;
    cbn beta iota; by rewrite store_alloc.
Qed.

Lemma new_plain c base std rs cat w :
  instance_of (heap w) base c = false →
  new c base std rs cat w =
  (Ok (length (heap w)), alloc c (fresh_attrs base std rs cat) w).
Proof.
  intros Hno. unfold new.
  assert (∀ m : gmap string value, m !! "base_estimator" = Some base →
               m !! "std_estimator" = Some std →
               <["std_estimator" := std]> (<["base_estimator" := base]> m) = m)
    as Hid.
  { intros m Hb Hs. rewrite (insert_id m) by done. by rewrite insert_id. }
  destruct c; unfold EntingRegressor_init, MisicRegressor_init;
    unfold setattr, isinstance, getattr_value, mbind, M_bind, mret, M_ret;
    cbn beta iota; rewrite !store_alloc, instance_of_alloc;
    fold (fresh_attrs base std rs cat).
  all: destruct base as [| | | | |a]; try done.
  all: case_decide as Ha; [subst a; cbn [subclass] | by rewrite Hno].
  all: destruct (fresh_attrs_lookup (VAdapter (length (heap w))) std rs cat)
         as (Hb & Hs & _).
  all: rewrite getattr_attr, attr_alloc, decide_True, Hb by done.
  all: cbn beta iota; rewrite store_alloc.
  all: rewrite getattr_attr, attr_alloc, decide_True by done.
  all: rewrite lookup_insert_ne, Hs by done.
  all: cbn beta iota; rewrite store_alloc.
  all: by rewrite Hid.
Qed.

(** ** The world through its updates *)

Lemma heap_record w ev : heap (record ev w) = heap w.
Proof. done. Qed.
Lemma heap_set_ext w e : heap (set_ext e w) = heap w.
Proof. done. Qed.
Lemma heap_set_files w f : heap (set_files f w) = heap w.
Proof. done. Qed.

Lemma attr_record w ev self name : attr (record ev w) self name = attr w self name.
Proof. done. Qed.
Lemma attr_set_ext w e self name : attr (set_ext e w) self name = attr w self name.
Proof. done. Qed.
Lemma attr_set_files w f self name :
  attr (set_files f w) self name = attr w self name.
Proof. done. Qed.

Lemma class_of_record w ev self : class_of (record ev w) self = class_of w self.
Proof. done. Qed.
Lemma class_of_set_ext w e self : class_of (set_ext e w) self = class_of w self.
Proof. done. Qed.
Lemma class_of_set_files w f self :
  class_of (set_files f w) self = class_of w self.
Proof. done. Qed.

Lemma ext_store w self name v : ext (store self name v w) = ext w.
Proof. done. Qed.
Lemma ext_record w ev : ext (record ev w) = ext w.
Proof. done. Qed.
Lemma ext_set_ext w e : ext (set_ext e w) = e.
Proof. done. Qed.
Lemma ext_set_files w f : ext (set_files f w) = ext w.
Proof. done. Qed.

Lemma calls_store w self name v : calls (store self name v w) = calls w.
Proof. done. Qed.
Lemma calls_record w ev : calls (record ev w) = calls w ++ [ev].
Proof. done. Qed.
Lemma calls_set_ext w e : calls (set_ext e w) = calls w.
Proof. done. Qed.
Lemma calls_set_files w f : calls (set_files f w) = calls w.
Proof. done. Qed.

Lemma files_store w self name v : files (store self name v w) = files w.
Proof. done. Qed.
Lemma files_record w ev : files (record ev w) = files w.
Proof. done. Qed.
Lemma files_set_ext w e : files (set_ext e w) = files w.
Proof. done. Qed.
Lemma files_set_files w f : files (set_files f w) = f.
Proof. done. Qed.

Lemma attr_store_other w self name v self' name' :
  name ≠ name' → attr (store self name v w) self' name' = attr w self' name'.
Proof. intros. apply attr_store_ne. by right. Qed.

End Properties.

Create Rewrite HintDb world.
#[global] Hint Rewrite @length_heap_store @heap_record @heap_set_ext
  @heap_set_files @attr_record @attr_set_ext @attr_set_files
  @class_of_record @class_of_set_ext @class_of_set_files @class_of_store
  @ext_store @ext_record @ext_set_ext @ext_set_files
  @calls_store @calls_record @calls_set_ext @calls_set_files
  @files_store @files_record @files_set_ext @files_set_files : world.
#[global] Hint Rewrite @attr_store_other using done : world.
#[global] Hint Rewrite @attr_store_eq
  using (autorewrite with world; eauto using attr_allocated) : world.

(** Unfold the monad and the calls, one layer. *)
Ltac munfold :=
  unfold call_set_params, clone, call_fit, call_predict, call_dump_model,
    call_std_update, call_std_predict;
  unfold lookup_method, setattr, log, foreign, lift, isinstance, write_json;
  unfold raise, mbind, M_bind, mret, M_ret;
  cbn beta iota.

(** Run the next attribute read, or split on the next answer of a
    collaborator. *)
Ltac split_call f :=
  let E := fresh "Hcall" in destruct f as [[[]|?] ?] eqn:E.

Ltac mstep :=
  first
  [ progress (autorewrite with world)
  | rewrite getattr_attr
  | match goal with
    | H : attr ?w ?s ?n = _ |- context [attr ?w ?s ?n] => rewrite H
    | H : is_object ?v = _ |- context [is_object ?v] => rewrite H
    | H : truthy ?v = _ |- context [truthy ?v] => rewrite H
    | H : ?t = (_, _) |- context [?t] => rewrite H
    | H : ?t = Ok _ |- context [?t] => rewrite H
    | |- context [match attr ?w ?s ?n with _ => _ end] =>
        let E := fresh "Hattr" in destruct (attr w s n) as [?|] eqn:E
    | |- context [if is_object ?v then _ else _] =>
        let E := fresh "Hobj" in destruct (is_object v) eqn:E
    | |- context [if truthy ?v then _ else _] =>
        let E := fresh "Htruthy" in destruct (truthy v) eqn:E
    | |- context [est_set_params ?r ?k ?e] =>
        split_call (est_set_params r k e)
    | |- context [est_fit ?r ?X ?y ?c ?e] =>
        split_call (est_fit r X y c e)
    | |- context [std_update ?r ?X ?y ?g ?c ?e] =>
        split_call (std_update r X y g c e)
    | |- context [sk_clone ?r ?e] =>
        let E := fresh "Hcall" in destruct (sk_clone r e) as [[?|?] ?] eqn:E
    | |- context [est_predict ?r ?X ?e] =>
        let E := fresh "Hcall" in
        destruct (est_predict r X e) as [[?|?] ?] eqn:E
    | |- context [std_predict ?r ?X ?b ?e] =>
        let E := fresh "Hcall" in
        destruct (std_predict r X b e) as [[?|?] ?] eqn:E
    | |- context [booster_dump_model ?r ?e] =>
        let E := fresh "Hcall" in
        destruct (booster_dump_model r e) as [[?|?] ?] eqn:E
    | |- context [fs_json_dump ?p ?d ?i ?s ?e] =>
        let E := fresh "Hcall" in
        destruct (fs_json_dump p d i s e) as [[[? [?|]]|] ?] eqn:E
    | |- context [order_tree_model_dict ?d ?c] =>
        let E := fresh "Hcall" in
        destruct (order_tree_model_dict d c) as [?|?] eqn:E
    | |- context [GbmModel ?o] =>
        let E := fresh "Hcall" in destruct (GbmModel o) as [?|?] eqn:E
    end
  | progress (cbn beta iota) ].

Ltac mrun := munfold; repeat mstep.

(** Close the inversion of a complete run: the witnesses are the values
    met on the way. *)
Ltac mclose :=
  lazymatch goal with
  | |- _ =>
      repeat match goal with
             | H : truthy ?v = _ |- context [truthy ?v] => rewrite H
             end;
      first [ reflexivity | eassumption ]
  end.

Ltac mwitness :=
  repeat (match goal with |- ∃ _, _ => eexists end);
  repeat match goal with |- _ ∧ _ => split end;
  mclose.

(** The calls a run added to the trace. *)
Ltac trace_eq :=
  cbn [fst snd]; autorewrite with world; rewrite <- ?app_assoc; cbn [app];
  first [ exists []; split; [by rewrite app_nil_r|]
        | eexists; split; [reflexivity|] ].

(** Every way to cut a trace that is known call by call. *)
Ltac no_such_call pre :=
  repeat (destruct pre as [|? pre]; cbn [app] in *; simplify_eq).

(** Run [fit] with the collaborators' answers given as hypotheses. *)
Ltac mrun_with cat :=
  unfold configured, fit_kwargs, passed_categorical in *;
  destruct_and?;
  destruct (truthy cat) eqn:?;
  mrun.

(** An exception met in a run is a lookup's or a collaborator's. *)
Ltac passed :=
  first [ left; eexists; reflexivity
        | right; econstructor; eassumption ].

Section Unfitted.
Context {collab : Collaborators}.

(** A new object has the class asked for and no [regressor_]. *)
Lemma new_unfitted (c : adapter_class) (base std rs cat : value) (w : world)
    (self : loc) (w' : world) :
  new c base std rs cat w = (Ok self, w') →
  self = length (heap w) ∧ class_of w' self = Some c ∧
  attr w' self "regressor_" = None.
Proof.
  unfold new.
  destruct c; unfold EntingRegressor_init, MisicRegressor_init;
    munfold; unfold getattr_value.
  all: match goal with
       | |- context [if ?b then _ else _] => destruct b
       end.
  all: try destruct base; repeat mstep; intros [= <- <-].
  all: autorewrite with world.
  all: rewrite class_of_alloc, attr_alloc, !decide_True by done.
  all: by rewrite lookup_empty.
Qed.

End Unfitted.

Section Fit.
Context {collab : Collaborators}.

Implicit Types (w : world) (self a : loc) (v b s : value).
Implicit Types (X : matrix) (y : vector) (c : adapter_class).


(** ** Complete runs of [fit] *)

Lemma EntingRegressor_fit_Ok self X y w w' :
  EntingRegressor_fit self X y w = (Ok tt, w') →
  ∃ b rs std cat r e1 e2 e3 e4,
    attr w self "base_estimator" = Some b ∧ is_object b = true ∧
    attr w self "random_state" = Some rs ∧
    attr w self "cat_idx" = Some cat ∧
    attr w self "std_estimator" = Some std ∧ is_object std = true ∧
    est_set_params b (fit_kwargs rs) (ext w) = (Ok tt, e1) ∧
    sk_clone b e1 = (Ok r, e2) ∧ is_object r = true ∧
    std_update std X y None cat e2 = (Ok tt, e3) ∧
    est_fit r X y (passed_categorical cat) e3 = (Ok tt, e4) ∧
    w' = EntingRegressor_fitted self X y w b rs std cat r e1 e2 e3 e4.
Proof.
  unfold EntingRegressor_fit, EntingRegressor_fitted, passed_categorical,
    fit_kwargs.
  mrun; intros [= <-]; mwitness.
Qed.

Lemma MisicRegressor_fit_Ok self X y w w' :
  MisicRegressor_fit self X y w = (Ok tt, w') →
  ∃ b rs std cat r d od g e1 e2 e3 e4 e5 e6,
    attr w self "base_estimator" = Some b ∧ is_object b = true ∧
    attr w self "random_state" = Some rs ∧
    attr w self "cat_idx" = Some cat ∧
    attr w self "std_estimator" = Some std ∧ is_object std = true ∧
    est_set_params b (fit_kwargs rs) (ext w) = (Ok tt, e1) ∧
    sk_clone b e1 = (Ok r, e2) ∧ is_object r = true ∧
    est_fit r X y (passed_categorical cat) e2 = (Ok tt, e3) ∧
    booster_dump_model r e3 = (Ok d, e4) ∧
    fs_json_dump "tree_dict_next.json" d 4 false e4 = (None, e5) ∧
    order_tree_model_dict d cat = Ok od ∧
    GbmModel od = Ok g ∧
    std_update std X y (Some g) cat e5 = (Ok tt, e6) ∧
    w' =
      MisicRegressor_fitted self X y w b rs std cat r d od g
        e1 e2 e3 e4 e5 e6.
Proof.
  unfold MisicRegressor_fit, get_gbm_model, MisicRegressor_fitted,
    passed_categorical, fit_kwargs.
  mrun; intros [= <-]; mwitness.
Qed.

End Fit.

(** ** Before any [fit] *)

Section BeforeFit.
Context {collab : Collaborators}.

Lemma predict_no_regressor (self : loc) (X : matrix) (return_std scaled : bool)
    (w : world) :
  attr w self "regressor_" = None →
  predict self X return_std scaled w = (Raise (AttributeError "regressor_"), w).
Proof. intros Hr. unfold predict. munfold. by rewrite getattr_attr, Hr. Qed.

Lemma get_gbm_model_no_regressor (self : loc) (w : world) :
  attr w self "regressor_" = None →
  get_gbm_model self w = (Raise (AttributeError "regressor_"), w).
Proof.
  intros Hr. unfold get_gbm_model. munfold. by rewrite getattr_attr, Hr.
Qed.

Lemma set_params_attr (self : loc) (params : kwargs) (w : world)
    (self' : loc) (name : string) :
  attr (set_params self params w).2 self' name = attr w self' name.
Proof. unfold set_params. mrun; by autorewrite with world. Qed.

Lemma run_other_no_regressor (self : loc) (op : other_op) (w : world) :
  attr w self "regressor_" = None →
  attr (run_other self w op) self "regressor_" = None.
Proof.
  intros Hr. destruct op; cbn [run_other].
  - by rewrite set_params_attr.
  - by rewrite predict_no_regressor.
  - by rewrite get_gbm_model_no_regressor.
Qed.

End BeforeFit.

Section AfterFit.
Context {collab : Collaborators}.

Implicit Types (w : world) (self : loc) (X : matrix) (y : vector).

(** ** What a complete run leaves *)

Lemma EntingRegressor_fitted_calls self X y w b rs std cat r e1 e2 e3 e4 :
  calls (EntingRegressor_fitted self X y w b rs std cat r e1 e2 e3 e4) =
  calls w ++ EntingRegressor_fit_calls b rs std cat r X y.
Proof.
  unfold EntingRegressor_fitted. autorewrite with world.
  by rewrite <- !app_assoc.
Qed.

Lemma MisicRegressor_fitted_calls
    self X y w b rs std cat r d od g e1 e2 e3 e4 e5 e6 :
  calls
    (MisicRegressor_fitted self X y w b rs std cat r d od g e1 e2 e3 e4 e5
       e6) =
  calls w ++ MisicRegressor_fit_calls b rs std cat r d od g X y.
Proof.
  unfold MisicRegressor_fitted. autorewrite with world.
  by rewrite <- !app_assoc.
Qed.

Lemma EntingRegressor_fitted_attr
    self X y w b rs std cat r e1 e2 e3 e4 self' name :
  attr (EntingRegressor_fitted self X y w b rs std cat r e1 e2 e3 e4)
    self' name =
  attr (store self "regressor_" r w) self' name.
Proof. done. Qed.

Lemma MisicRegressor_fitted_attr
    self X y w b rs std cat r d od g e1 e2 e3 e4 e5 e6 self' name :
  attr (MisicRegressor_fitted self X y w b rs std cat r d od g e1 e2 e3 e4 e5
       e6)
    self' name =
  attr (store self "regressor_" r w) self' name.
Proof. done. Qed.

Lemma MisicRegressor_fitted_files
    self X y w b rs std cat r d od g e1 e2 e3 e4 e5 e6 :
  files
    (MisicRegressor_fitted self X y w b rs std cat r d od g e1 e2 e3 e4 e5
       e6) =
  <["tree_dict_next.json" := json_dump d 4 false]> (files w).
Proof. done. Qed.

Lemma fit_Ok_cases self X y w w' :
  fit self X y w = (Ok tt, w') →
  (class_of w self = Some MisicRegressor ∧
   MisicRegressor_fit self X y w = (Ok tt, w')) ∨
  (class_of w self ≠ Some MisicRegressor ∧
   EntingRegressor_fit self X y w = (Ok tt, w')).
Proof.
  unfold fit, class_of. destruct (cls <$> heap w !! self) as [[]|]; eauto.
Qed.

Lemma passed_categorical_list (l : list Z) :
  passed_categorical (VList l) =
  if decide (l = []) then None else Some (VList l).
Proof. by destruct l. Qed.


(** ** Prediction *)

Lemma fit_Ok_fitted self X y w w' :
  fit self X y w = (Ok tt, w') →
  ∃ r std,
    attr w' self "regressor_" = Some r ∧ is_object r = true ∧
    attr w' self "std_estimator" = Some std ∧ is_object std = true.
Proof.
  intros [[_ Hfit]|[_ Hfit]]%fit_Ok_cases.
  - apply MisicRegressor_fit_Ok in Hfit
      as (b & rs & std & cat & r & d & od & g & e1 & e2 & e3 & e4 & e5 &
          e6 &
          Hb & _ & _ & _ & Hstd & Hostd & _ & _ & Hor & _ & _ & _ & _ & _ &
          _ & ->).
    exists r, std. rewrite !MisicRegressor_fitted_attr.
    rewrite (attr_store_other _ _ _ _ _ "std_estimator") by done.
    split_and!; try done. apply attr_store_eq. by eapply attr_allocated.
  - apply EntingRegressor_fit_Ok in Hfit
      as (b & rs & std & cat & r & e1 & e2 & e3 & e4 &
          Hb & _ & _ & _ & Hstd & Hostd & _ & _ & Hor & _ & _ & ->).
    exists r, std. rewrite !EntingRegressor_fitted_attr.
    rewrite (attr_store_other _ _ _ _ _ "std_estimator") by done.
    split_and!; try done. apply attr_store_eq. by eapply attr_allocated.
Qed.

Lemma predict_run self X (return_std scaled : bool) w (r : value) :
  attr w self "regressor_" = Some r → is_object r = true →
  predict self X return_std scaled w =
  let w1 := record (CallPredict r X) w in
  match est_predict r X (ext w) with
  | (Raise e, e1) => (Raise e, set_ext e1 w1)
  | (Ok mean, e1) =>
      if return_std then
        match attr w self "std_estimator" with
        | None => (Raise (AttributeError "std_estimator"), set_ext e1 w1)
        | Some std =>
            if is_object std then
              let w2 := record (CallStdPredict std X scaled) (set_ext e1 w1) in
              match std_predict std X scaled e1 with
              | (Raise e, e2) => (Raise e, set_ext e2 w2)
              | (Ok sd, e2) => (Ok (MeanStd mean sd), set_ext e2 w2)
              end
            else (Raise (AttributeError "predict"), set_ext e1 w1)
        end
      else (Ok (Mean mean), set_ext e1 w1)
  end.
Proof.
  intros Hr Hobj. unfold predict. munfold.
  rewrite getattr_attr, Hr. cbn beta iota. rewrite Hobj.
  autorewrite with world.
  destruct (est_predict r X (ext w)) as [[mean|e] e1]; [|done].
  destruct return_std; [|done].
  rewrite getattr_attr. autorewrite with world.
  destruct (attr w self "std_estimator") as [std|]; [|done].
  destruct (is_object std); [|done].
  autorewrite with world.
  by destruct (std_predict std X scaled e1) as [[sd|e] e2].
Qed.

End AfterFit.

(** ** The order of the calls, in every run *)

Section Order.
Context {collab : Collaborators}.

Implicit Types (w : world) (self : loc) (X : matrix) (y : vector).
Implicit Types (ev : list event).

Lemma EntingRegressor_fit_trace self X y w res w' :
  EntingRegressor_fit self X y w = (res, w') →
  ∃ ev,
    calls w' = calls w ++ ev ∧
    update_before_fit (stored w self "std_estimator")
      (stored w self "cat_idx") X y ev.
Proof.
  unfold EntingRegressor_fit, update_before_fit, stored. mrun.
  all: intros [= <- <-]; trace_eq.
  all: split;
    [ intros pre post recv X' y' cf Heq; no_such_call pre
    | intros recv X' y' g c';
      rewrite ?elem_of_cons, elem_of_nil; intros Hin;
      repeat (destruct Hin as [Hin|Hin]; try discriminate); try done;
      by simplify_eq ].
  all: cbn [default from_option id]; unfold passed_categorical; rewrite ?Htruthy.
  all: split_and!; eauto.
Qed.


Lemma MisicRegressor_fit_trace self X y w res w' :
  MisicRegressor_fit self X y w = (res, w') →
  ∃ ev,
    calls w' = calls w ++ ev ∧
    update_after_export (stored w self "std_estimator")
      (stored w self "cat_idx") X y ev.
Proof.
  unfold MisicRegressor_fit, get_gbm_model, update_after_export, stored.
  mrun.
  all: intros [= <- <-]; trace_eq.
  all: intros pre post recv X' y' g c' Heq; no_such_call pre.
  all: cbn [default from_option id]; unfold passed_categorical, export_calls;
    rewrite ?Htruthy.
  all: split_and!; try done; do 6 eexists; split_and!; eauto.
Qed.

End Order.

(** ** Runs that fail *)

Section Failures.
Context {collab : Collaborators}.

Implicit Types (w : world) (self : loc) (X : matrix) (y : vector).

Lemma fit_class self X y w :
  (class_of w self = Some MisicRegressor →
   fit self X y w = MisicRegressor_fit self X y w) ∧
  (class_of w self = Some EntingRegressor →
   fit self X y w = EntingRegressor_fit self X y w).
Proof. unfold fit, class_of. split; by intros ->. Qed.

Lemma fit_no_base_estimator self X y w :
  attr w self "base_estimator" = Some VNone →
  fit self X y w = (Raise (AttributeError "set_params"), w).
Proof.
  intros Hb. unfold fit.
  destruct (cls <$> heap w !! self) as [[]|];
    unfold EntingRegressor_fit, MisicRegressor_fit; munfold;
    by rewrite getattr_attr, Hb.
Qed.

Lemma fit_Ok_std_estimator self X y w w' :
  fit self X y w = (Ok tt, w') →
  ∃ std, attr w self "std_estimator" = Some std ∧ is_object std = true.
Proof.
  intros [[_ Hfit]|[_ Hfit]]%fit_Ok_cases.
  - apply MisicRegressor_fit_Ok in Hfit
      as (b & rs & std & cat & r & d & od & g & e1 & e2 & e3 & e4 & e5 &
          e6 &
          _ & _ & _ & _ & Hstd & Hostd & _).
    eauto.
  - apply EntingRegressor_fit_Ok in Hfit
      as (b & rs & std & cat & r & e1 & e2 & e3 & e4 &
          _ & _ & _ & _ & Hstd & Hostd & _).
    eauto.
Qed.

Lemma fit_no_std_estimator self X y w :
  attr w self "std_estimator" = Some VNone →
  ∃ e, (fit self X y w).1 = Raise e.
Proof.
  intros Hstd.
  destruct (fit self X y w) as [[[]|e] w'] eqn:Hfit; [|by eexists].
  apply fit_Ok_std_estimator in Hfit as (std & Hstd' & Hobj).
  rewrite Hstd in Hstd'. by simplify_eq.
Qed.

Lemma EntingRegressor_fit_no_std self X y w b rs cat e1 r e2 :
  configured w self b rs VNone cat →
  est_set_params b (fit_kwargs rs) (ext w) = (Ok tt, e1) →
  sk_clone b e1 = (Ok r, e2) →
  (EntingRegressor_fit self X y w).1 = Raise (AttributeError "update").
Proof. intros Hc Hset Hclone. unfold EntingRegressor_fit. by mrun_with cat. Qed.

Lemma MisicRegressor_fit_no_std
    self X y w b rs cat e1 r e2 e3 d e4 e5 od (g : gbm_model) :
  configured w self b rs VNone cat →
  est_set_params b (fit_kwargs rs) (ext w) = (Ok tt, e1) →
  sk_clone b e1 = (Ok r, e2) → is_object r = true →
  est_fit r X y (passed_categorical cat) e2 = (Ok tt, e3) →
  booster_dump_model r e3 = (Ok d, e4) →
  fs_json_dump "tree_dict_next.json" d 4 false e4 = (None, e5) →
  order_tree_model_dict d cat = Ok od → GbmModel od = Ok g →
  (MisicRegressor_fit self X y w).1 = Raise (AttributeError "update").
Proof.
  intros Hc Hset Hclone Hobj Hfit Hdump Hwrite Hord Hg.
  unfold MisicRegressor_fit, get_gbm_model. by mrun_with cat.
Qed.

Lemma EntingRegressor_fit_propagates
    self X y w b rs std cat e1 r e2 e3 (e : exn) e4 :
  configured w self b rs std cat → is_object std = true →
  est_set_params b (fit_kwargs rs) (ext w) = (Ok tt, e1) →
  sk_clone b e1 = (Ok r, e2) → is_object r = true →
  std_update std X y None cat e2 = (Ok tt, e3) →
  est_fit r X y (passed_categorical cat) e3 = (Raise e, e4) →
  (EntingRegressor_fit self X y w).1 = Raise e.
Proof.
  intros Hc Hostd Hset Hclone Hobj Hupd Hfit.
  unfold EntingRegressor_fit. by mrun_with cat.
Qed.

Lemma MisicRegressor_fit_propagates
    self X y w b rs std cat e1 r e2 (e : exn) e3 :
  configured w self b rs std cat →
  est_set_params b (fit_kwargs rs) (ext w) = (Ok tt, e1) →
  sk_clone b e1 = (Ok r, e2) → is_object r = true →
  est_fit r X y (passed_categorical cat) e2 = (Raise e, e3) →
  (MisicRegressor_fit self X y w).1 = Raise e.
Proof.
  intros Hc Hset Hclone Hobj Hfit.
  unfold MisicRegressor_fit, get_gbm_model. by mrun_with cat.
Qed.

Lemma predict_propagates self X (return_std scaled : bool) w r (e : exn) e1 :
  attr w self "regressor_" = Some r → is_object r = true →
  est_predict r X (ext w) = (Raise e, e1) →
  (predict self X return_std scaled w).1 = Raise e.
Proof.
  intros Hr Hobj Hp. rewrite (predict_run _ _ _ _ _ r) by done.
  cbn zeta. by rewrite Hp.
Qed.

(** ** Runs in which every collaborator answers *)

Lemma MisicRegressor_fit_complete
    self X y w (b rs std cat r : value) (d : tree_dict) (od : ordered_dict)
    (g : gbm_model) e1 e2 e3 e4 e5 e6 :
  configured w self b rs std cat → is_object std = true →
  est_set_params b (fit_kwargs rs) (ext w) = (Ok tt, e1) →
  sk_clone b e1 = (Ok r, e2) → is_object r = true →
  est_fit r X y (passed_categorical cat) e2 = (Ok tt, e3) →
  booster_dump_model r e3 = (Ok d, e4) →
  fs_json_dump "tree_dict_next.json" d 4 false e4 = (None, e5) →
  order_tree_model_dict d cat = Ok od → GbmModel od = Ok g →
  std_update std X y (Some g) cat e5 = (Ok tt, e6) →
  MisicRegressor_fit self X y w =
    (Ok tt,
     MisicRegressor_fitted self X y w b rs std cat r d od g e1 e2 e3 e4 e5 e6).
Proof.
  intros Hc Hostd Hset Hclone Hobj Hfit Hdump Hwrite Hord Hg Hupd.
  unfold MisicRegressor_fit, get_gbm_model, MisicRegressor_fitted.
  by mrun_with cat.
Qed.

(** ** Runs up to the last call, and runs that stop on the way *)

Lemma EntingRegressor_fit_run
    self X y w (b rs std cat r : value) e1 e2 e3 :
  configured w self b rs std cat → is_object std = true →
  est_set_params b (fit_kwargs rs) (ext w) = (Ok tt, e1) →
  sk_clone b e1 = (Ok r, e2) → is_object r = true →
  std_update std X y None cat e2 = (Ok tt, e3) →
  EntingRegressor_fit self X y w =
    let last := est_fit r X y (passed_categorical cat) e3 in
    (last.1,
     EntingRegressor_fitted self X y w b rs std cat r e1 e2 e3 last.2).
Proof.
  intros Hc Hostd Hset Hclone Hobj Hupd.
  unfold EntingRegressor_fit, EntingRegressor_fitted. cbv zeta.
  by mrun_with cat.
Qed.

Lemma MisicRegressor_fit_run
    self X y w (b rs std cat r : value) (d : tree_dict) (od : ordered_dict)
    (g : gbm_model) e1 e2 e3 e4 e5 :
  configured w self b rs std cat → is_object std = true →
  est_set_params b (fit_kwargs rs) (ext w) = (Ok tt, e1) →
  sk_clone b e1 = (Ok r, e2) → is_object r = true →
  est_fit r X y (passed_categorical cat) e2 = (Ok tt, e3) →
  booster_dump_model r e3 = (Ok d, e4) →
  fs_json_dump "tree_dict_next.json" d 4 false e4 = (None, e5) →
  order_tree_model_dict d cat = Ok od → GbmModel od = Ok g →
  MisicRegressor_fit self X y w =
    let last := std_update std X y (Some g) cat e5 in
    (last.1,
     MisicRegressor_fitted self X y w b rs std cat r d od g
       e1 e2 e3 e4 e5 last.2).
Proof.
  intros Hc Hostd Hset Hclone Hobj Hfit Hdump Hwrite Hord Hg.
  unfold MisicRegressor_fit, get_gbm_model, MisicRegressor_fitted. cbv zeta.
  by mrun_with cat.
Qed.

Lemma MisicRegressor_fit_stops
    self X y w (b rs std cat r : value) e1 e2 (x : exn) e3 :
  configured w self b rs std cat →
  est_set_params b (fit_kwargs rs) (ext w) = (Ok tt, e1) →
  sk_clone b e1 = (Ok r, e2) → is_object r = true →
  est_fit r X y (passed_categorical cat) e2 = (Raise x, e3) →
  MisicRegressor_fit self X y w =
    (Raise x,
     set_ext e3 (record (CallFit r X y (passed_categorical cat))
       (store self "regressor_" r
         (set_ext e2 (record (CallClone b)
           (set_ext e1 (record (CallSetParams b (fit_kwargs rs)) w))))))).
Proof.
  intros Hc Hset Hclone Hobj Hfit.
  unfold MisicRegressor_fit, get_gbm_model.
  by mrun_with cat.
Qed.

Lemma EntingRegressor_fit_stops
    self X y w (b rs std cat r : value) e1 e2 (x : exn) e3 :
  configured w self b rs std cat → is_object std = true →
  est_set_params b (fit_kwargs rs) (ext w) = (Ok tt, e1) →
  sk_clone b e1 = (Ok r, e2) →
  std_update std X y None cat e2 = (Raise x, e3) →
  EntingRegressor_fit self X y w =
    (Raise x,
     set_ext e3 (record (CallStdUpdate std X y None cat)
       (store self "regressor_" r
         (set_ext e2 (record (CallClone b)
           (set_ext e1 (record (CallSetParams b (fit_kwargs rs)) w))))))).
Proof.
  intros Hc Hostd Hset Hclone Hupd.
  unfold EntingRegressor_fit.
  by mrun_with cat.
Qed.

End Failures.

(** * The claims *)

Section Claims.
Context {collab : Collaborators}.

Implicit Types (w : world) (self : loc) (X : matrix) (y : vector).

(** C1. Variant A's [fit], on an adapter whose estimators are objects of
    the collaborators and whose [cat_idx] is a plain value, once the base
    estimator is configured and cloned: the uncertainty estimator is
    updated from [(X, y, cat_idx)], with no tree structure, on the state
    the clone left. When the update returns, the clone is fitted on the
    state the update left, and what that fit answers is what [fit]
    answers; when the update raises, [fit] raises the same and the clone
    is not fitted. In every run, an update carries no tree structure and a
    fit of the clone comes only after it. Variant B's [fit]: the clone is
    fitted first. When that returns and the structure is dumped, written
    and normalised, the uncertainty estimator is updated last, from
    [(X, y, exported structure, cat_idx)], on the state the export left,
    and what the update answers is what [fit] answers; when the clone's
    fit raises, [fit] raises the same, and nothing is exported or updated.
    In every run, an update comes only after the clone's fit and the
    export, and carries the exported structure. *)
Theorem fit_update_order self X y w :
  (∀ (b std r : nat) (rs cat : value) e1 e2 e3,
     configured w self (VObj b) rs (VObj std) cat →
     (∀ o, cat ≠ VObj o) →
     est_set_params (VObj b) (fit_kwargs rs) (ext w) = (Ok tt, e1) →
     sk_clone (VObj b) e1 = (Ok (VObj r), e2) →
     std_update (VObj std) X y None cat e2 = (Ok tt, e3) →
     let out := EntingRegressor_fit self X y w in
     let last := est_fit (VObj r) X y (passed_categorical cat) e3 in
     out.1 = last.1 ∧
     ext out.2 = last.2 ∧
     attr out.2 self "regressor_" = Some (VObj r) ∧
     files out.2 = files w ∧
     calls out.2 =
       calls w ++
       EntingRegressor_fit_calls (VObj b) rs (VObj std) cat (VObj r) X y) ∧
  (∀ (b std r : nat) (rs cat : value) e1 e2 (x : exn) e3,
     configured w self (VObj b) rs (VObj std) cat →
     (∀ o, cat ≠ VObj o) →
     est_set_params (VObj b) (fit_kwargs rs) (ext w) = (Ok tt, e1) →
     sk_clone (VObj b) e1 = (Ok (VObj r), e2) →
     std_update (VObj std) X y None cat e2 = (Raise x, e3) →
     let out := EntingRegressor_fit self X y w in
     out.1 = Raise x ∧
     ext out.2 = e3 ∧
     calls out.2 =
       calls w ++
       [ CallSetParams (VObj b) (fit_kwargs rs);
         CallClone (VObj b);
         CallStdUpdate (VObj std) X y None cat ]) ∧
  ((∀ o, attr w self "cat_idx" ≠ Some (VObj o)) →
   ∃ ev,
     calls (EntingRegressor_fit self X y w).2 = calls w ++ ev ∧
     update_before_fit (stored w self "std_estimator")
       (stored w self "cat_idx") X y ev) ∧
  (∀ (b std r : nat) (rs cat : value) (d : tree_dict) (od : ordered_dict)
     (g : gbm_model) e1 e2 e3 e4 e5,
     configured w self (VObj b) rs (VObj std) cat →
     (∀ o, cat ≠ VObj o) →
     est_set_params (VObj b) (fit_kwargs rs) (ext w) = (Ok tt, e1) →
     sk_clone (VObj b) e1 = (Ok (VObj r), e2) →
     est_fit (VObj r) X y (passed_categorical cat) e2 = (Ok tt, e3) →
     booster_dump_model (VObj r) e3 = (Ok d, e4) →
     fs_json_dump "tree_dict_next.json" d 4 false e4 = (None, e5) →
     order_tree_model_dict d cat = Ok od → GbmModel od = Ok g →
     let out := MisicRegressor_fit self X y w in
     let last := std_update (VObj std) X y (Some g) cat e5 in
     out.1 = last.1 ∧
     ext out.2 = last.2 ∧
     attr out.2 self "regressor_" = Some (VObj r) ∧
     files out.2 =
       <["tree_dict_next.json" := json_dump d 4 false]> (files w) ∧
     calls out.2 =
       calls w ++
       MisicRegressor_fit_calls (VObj b) rs (VObj std) cat (VObj r) d od g
         X y) ∧
  (∀ (b r : nat) (rs std cat : value) e1 e2 (x : exn) e3,
     configured w self (VObj b) rs std cat →
     (∀ o, cat ≠ VObj o) →
     est_set_params (VObj b) (fit_kwargs rs) (ext w) = (Ok tt, e1) →
     sk_clone (VObj b) e1 = (Ok (VObj r), e2) →
     est_fit (VObj r) X y (passed_categorical cat) e2 = (Raise x, e3) →
     let out := MisicRegressor_fit self X y w in
     out.1 = Raise x ∧
     ext out.2 = e3 ∧
     files out.2 = files w ∧
     calls out.2 =
       calls w ++
       [ CallSetParams (VObj b) (fit_kwargs rs);
         CallClone (VObj b);
         CallFit (VObj r) X y (passed_categorical cat) ]) ∧
  ((∀ o, attr w self "cat_idx" ≠ Some (VObj o)) →
   ∃ ev,
     calls (MisicRegressor_fit self X y w).2 = calls w ++ ev ∧
     update_after_export (stored w self "std_estimator")
       (stored w self "cat_idx") X y ev).
Proof.
  split_and!.
  - intros b std r rs cat e1 e2 e3 Hc _ Hset Hclone Hupd out last.
    subst out last.
    rewrite (EntingRegressor_fit_run self X y w (VObj b) rs (VObj std) cat
               (VObj r) e1 e2 e3) by done.
    cbn [fst snd]. destruct Hc as (Hb & _).
    split_and!; try done.
    + rewrite EntingRegressor_fitted_attr. apply attr_store_eq.
      by eapply attr_allocated.
    + apply EntingRegressor_fitted_calls.
  - intros b std r rs cat e1 e2 x e3 Hc _ Hset Hclone Hupd out. subst out.
    rewrite (EntingRegressor_fit_stops self X y w (VObj b) rs (VObj std) cat
               (VObj r) e1 e2 x e3) by done.
    cbn [fst snd]. autorewrite with world. rewrite <- !app_assoc.
    by split_and!.
  - intros _. destruct (EntingRegressor_fit self X y w) as [res w'] eqn:Hfit.
    by apply EntingRegressor_fit_trace in Hfit.
  - intros b std r rs cat d od g e1 e2 e3 e4 e5
      Hc _ Hset Hclone Hfit Hdump Hwrite Hord Hg out last.
    subst out last.
    rewrite (MisicRegressor_fit_run self X y w (VObj b) rs (VObj std) cat
               (VObj r) d od g e1 e2 e3 e4 e5) by done.
    cbn [fst snd]. destruct Hc as (Hb & _).
    split_and!; try done.
    + rewrite MisicRegressor_fitted_attr. apply attr_store_eq.
      by eapply attr_allocated.
    + apply MisicRegressor_fitted_calls.
  - intros b r rs std cat e1 e2 x e3 Hc _ Hset Hclone Hfit out. subst out.
    rewrite (MisicRegressor_fit_stops self X y w (VObj b) rs std cat
               (VObj r) e1 e2 x e3) by done.
    cbn [fst snd]. autorewrite with world. rewrite <- !app_assoc.
    by split_and!.
  - intros _. destruct (MisicRegressor_fit self X y w) as [res w'] eqn:Hfit.
    by apply MisicRegressor_fit_trace in Hfit.
Qed.

(** C2, as the code has it. On an adapter that was constructed and then
    used in any way except [fit], [predict] (whatever its flags) and
    [get_gbm_model] raise the built-in [AttributeError] for the attribute
    [regressor_], which only [fit] sets; they change nothing. No
    [NotFittedError] is raised. *)
Theorem predict_before_fit_AttributeError
    (c : adapter_class) (base std rs cat : value) (w : world)
    (self : loc) (w0 : world) (ops : list other_op)
    (X : matrix) (return_std scaled : bool) :
  new c base std rs cat w = (Ok self, w0) →
  let w1 := foldl (run_other self) w0 ops in
  predict self X return_std scaled w1 =
    (Raise (AttributeError "regressor_"), w1) ∧
  get_gbm_model self w1 = (Raise (AttributeError "regressor_"), w1).
Proof.
  intros (_ & _ & Hr)%new_unfitted w1.
  assert (attr w1 self "regressor_" = None) as Hr1.
  { subst w1. revert w0 Hr.
    induction ops as [|op ops IH]; intros w0 Hr; [done|].
    cbn [foldl]. by apply IH, run_other_no_regressor. }
  split.
  - by apply predict_no_regressor.
  - by apply get_gbm_model_no_regressor.
Qed.

(** C3. Constructing an adapter of class [c] with an adapter [a] of the
    same class as [base_estimator] stores [a]'s own base estimator and
    uncertainty estimator, not [a] and not the [std_estimator] argument;
    a [base_estimator] that is not an instance of [c] is stored as given,
    next to the [std_estimator] given. *)
Theorem construct_unwraps_same_variant
    (c : adapter_class) (base std rs cat : value) (w : world) :
  let self := length (heap w) in
  let w' := (new c base std rs cat w).2 in
  (∀ a b s,
     base = VAdapter a → class_of w a = Some c →
     attr w a "base_estimator" = Some b →
     attr w a "std_estimator" = Some s →
     (new c base std rs cat w).1 = Ok self ∧
     class_of w' self = Some c ∧
     attr w' self "base_estimator" = Some b ∧
     attr w' self "std_estimator" = Some s) ∧
  (instance_of (heap w) base c = false →
     (new c base std rs cat w).1 = Ok self ∧
     class_of w' self = Some c ∧
     attr w' self "base_estimator" = Some base ∧
     attr w' self "std_estimator" = Some std).
Proof.
  intros self w'; subst self w'. split.
  - intros a b s -> Hc Hb Hs.
    rewrite (new_unwrap c c a std rs cat w b s)
      by auto using subclass_refl.
    cbn [fst snd]. rewrite class_of_alloc, !attr_alloc, !decide_True by done.
    repeat split; by simplify_map_eq.
  - intros Hno. rewrite new_plain by done.
    cbn [fst snd]. rewrite class_of_alloc, !attr_alloc, !decide_True by done.
    destruct (fresh_attrs_lookup base std rs cat) as (? & ? & _).
    by repeat split.
Qed.

(** C4. [set_params] forwards its keyword arguments to the base
    estimator's [set_params] with [min_child_samples] set to 2 when the
    caller did not give it, the caller's value when given, and every other
    key as the caller gave it. *)
Theorem set_params_default_min_child_samples
    (self : loc) (params : kwargs) (w : world) (b : value) :
  attr w self "base_estimator" = Some b → is_object b = true →
  ∃ forwarded : kwargs,
    set_params self params w =
      (let '(r, e) := est_set_params b forwarded (ext w) in
       (r, set_ext e (record (CallSetParams b forwarded) w))) ∧
    (params !! "min_child_samples" = None →
       forwarded !! "min_child_samples" = Some (VInt 2)) ∧
    (∀ v, params !! "min_child_samples" = Some v → forwarded = params) ∧
    (∀ k, k ≠ "min_child_samples" → forwarded !! k = params !! k).
Proof.
  intros Hb Hobj. unfold set_params.
  eexists. split.
  - munfold. rewrite getattr_attr, Hb. cbn beta iota. rewrite Hobj.
    reflexivity.
  - case_decide as Hin; rewrite elem_of_dom in Hin.
    + destruct Hin as [v' Hv']. repeat split; [congruence | done..].
    + apply eq_None_not_Some in Hin. repeat split.
      * intros _. apply lookup_insert_eq.
      * intros v Hv. congruence.
      * intros k Hk. by rewrite lookup_insert_ne.
Qed.

(** C5, as the code has it. On an adapter with a fitted [regressor_],
    once the model is dumped [get_gbm_model] always attempts, before it
    normalises anything, to write the text of the dump to
    [tree_dict_next.json]. When the write completes, the file holds that
    text and the result is [GbmModel] of the normalised form of that same
    dump. When opening or writing the file raises, that exception is the
    result, nothing is normalised, and the file is as the failure left
    it. *)
Theorem get_gbm_model_writes_file self w (r cat : value)
    (d : tree_dict) (e1 : ext_state) :
  attr w self "regressor_" = Some r → is_object r = true →
  attr w self "cat_idx" = Some cat →
  booster_dump_model r (ext w) = (Ok d, e1) →
  let out := get_gbm_model self w in
  let text := json_dump d 4 false in
  ∃ rest,
    calls out.2 =
      calls w ++
      [CallDumpModel r; WriteFile "tree_dict_next.json" text] ++ rest ∧
    match fs_json_dump "tree_dict_next.json" d 4 false e1 with
    | (None, e2) =>
        files out.2 = <["tree_dict_next.json" := text]> (files w) ∧
        out.1 =
          match order_tree_model_dict d cat with
          | Ok od => GbmModel od
          | Raise e => Raise e
          end ∧
        rest =
          CallOrderTreeModelDict d cat ::
          match order_tree_model_dict d cat with
          | Ok od => [CallGbmModel od]
          | Raise _ => []
          end
    | (Some (x, part), e2) =>
        out.1 = Raise x ∧
        rest = [] ∧
        files out.2 =
          match part with
          | Some half => <["tree_dict_next.json" := half]> (files w)
          | None => files w
          end
    end.
Proof.
  intros Hr Hobj Hcat Hdump out text; subst out text.
  unfold get_gbm_model. munfold.
  rewrite getattr_attr, Hr. cbn beta iota. rewrite Hobj.
  autorewrite with world. rewrite Hdump. cbn beta iota.
  autorewrite with world.
  destruct (fs_json_dump "tree_dict_next.json" d 4 false e1)
    as [[[x [part|]]|] e2]; cbn beta iota.
  - eexists. cbn [fst snd]. autorewrite with world.
    rewrite <- ?app_assoc. by split_and!.
  - eexists. cbn [fst snd]. autorewrite with world.
    rewrite <- ?app_assoc. by split_and!.
  - repeat mstep; cbn [fst snd]; autorewrite with world;
      rewrite <- ?app_assoc; eexists; by split_and!.
Qed.

(** C6. [fit], in either variant, on an adapter whose estimators are
    objects of the collaborators and whose [cat_idx] is a plain value: it
    sets [random_state] and [verbose=-1] on the stored base estimator,
    clones it, stores the clone as [regressor_] whatever was there before,
    and fits the clone on [(X, y)], with [categorical_feature] exactly when
    [cat_idx] is a non-empty list. In Variant A the clone's fit is the last
    call: its answer and the state it leaves are those of [fit]. In
    Variant B a fit of the clone that returns is followed by the export
    and the update, on the state it left, and one that raises ends [fit]
    with that exception, the clone stored. And a complete [fit] did just
    that: the stored base estimator was configured and cloned, and the
    clone's [fit] was applied once. *)
Theorem fit_clones_and_fits self X y w :
  (∀ (b std r : nat) (rs cat : value) e1 e2 e3,
     class_of w self = Some EntingRegressor →
     configured w self (VObj b) rs (VObj std) cat →
     (∀ o, cat ≠ VObj o) →
     est_set_params (VObj b) (fit_kwargs rs) (ext w) = (Ok tt, e1) →
     sk_clone (VObj b) e1 = (Ok (VObj r), e2) →
     std_update (VObj std) X y None cat e2 = (Ok tt, e3) →
     let out := fit self X y w in
     let fitted := est_fit (VObj r) X y (passed_categorical cat) e3 in
     out.1 = fitted.1 ∧
     ext out.2 = fitted.2 ∧
     attr out.2 self "regressor_" = Some (VObj r) ∧
     calls out.2 =
       calls w ++
       EntingRegressor_fit_calls (VObj b) rs (VObj std) cat (VObj r) X y) ∧
  (∀ (b std r : nat) (rs cat : value) (d : tree_dict) (od : ordered_dict)
     (g : gbm_model) e1 e2 e3 e4 e5 e6,
     class_of w self = Some MisicRegressor →
     configured w self (VObj b) rs (VObj std) cat →
     (∀ o, cat ≠ VObj o) →
     est_set_params (VObj b) (fit_kwargs rs) (ext w) = (Ok tt, e1) →
     sk_clone (VObj b) e1 = (Ok (VObj r), e2) →
     est_fit (VObj r) X y (passed_categorical cat) e2 = (Ok tt, e3) →
     booster_dump_model (VObj r) e3 = (Ok d, e4) →
     fs_json_dump "tree_dict_next.json" d 4 false e4 = (None, e5) →
     order_tree_model_dict d cat = Ok od → GbmModel od = Ok g →
     std_update (VObj std) X y (Some g) cat e5 = (Ok tt, e6) →
     let out := fit self X y w in
     out.1 = Ok tt ∧
     ext out.2 = e6 ∧
     attr out.2 self "regressor_" = Some (VObj r) ∧
     calls out.2 =
       calls w ++
       MisicRegressor_fit_calls (VObj b) rs (VObj std) cat (VObj r) d od g
         X y) ∧
  (∀ (b r : nat) (rs std cat : value) e1 e2 (x : exn) e3,
     class_of w self = Some MisicRegressor →
     configured w self (VObj b) rs std cat →
     (∀ o, cat ≠ VObj o) →
     est_set_params (VObj b) (fit_kwargs rs) (ext w) = (Ok tt, e1) →
     sk_clone (VObj b) e1 = (Ok (VObj r), e2) →
     est_fit (VObj r) X y (passed_categorical cat) e2 = (Raise x, e3) →
     let out := fit self X y w in
     out.1 = Raise x ∧
     ext out.2 = e3 ∧
     attr out.2 self "regressor_" = Some (VObj r) ∧
     calls out.2 =
       calls w ++
       [ CallSetParams (VObj b) (fit_kwargs rs);
         CallClone (VObj b);
         CallFit (VObj r) X y (passed_categorical cat) ]) ∧
  (∀ w',
     (∀ o, attr w self "cat_idx" ≠ Some (VObj o)) →
     fit self X y w = (Ok tt, w') →
     ∃ b rs cat r e1 e2 e3 e4 rest,
       attr w self "base_estimator" = Some b ∧
       attr w self "random_state" = Some rs ∧
       attr w self "cat_idx" = Some cat ∧
       est_set_params b (fit_kwargs rs) (ext w) = (Ok tt, e1) ∧
       sk_clone b e1 = (Ok r, e2) ∧
       est_fit r X y (passed_categorical cat) e3 = (Ok tt, e4) ∧
       attr w' self "regressor_" = Some r ∧
       calls w' =
         calls w ++ CallSetParams b (fit_kwargs rs) :: CallClone b :: rest ∧
       (∀ r' X' y' cf,
          CallFit r' X' y' cf ∈ rest ↔
          r' = r ∧ X' = X ∧ y' = y ∧ cf = passed_categorical cat)) ∧
  (∀ l : list Z,
     passed_categorical (VList l) =
     if decide (l = []) then None else Some (VList l)).
Proof.
  split_and!.
  - intros b std r rs cat e1 e2 e3 Hcls Hc _ Hset Hclone Hupd out fitted.
    subst out fitted. rewrite (proj2 (fit_class self X y w) Hcls).
    rewrite (EntingRegressor_fit_run self X y w (VObj b) rs (VObj std) cat
               (VObj r) e1 e2 e3) by done.
    cbn [fst snd]. destruct Hc as (Hb & _).
    split_and!; try done.
    + rewrite EntingRegressor_fitted_attr. apply attr_store_eq.
      by eapply attr_allocated.
    + apply EntingRegressor_fitted_calls.
  - intros b std r rs cat d od g e1 e2 e3 e4 e5 e6 Hcls
      Hc _ Hset Hclone Hfit Hdump Hwrite Hord Hg Hupd out.
    subst out. rewrite (proj1 (fit_class self X y w) Hcls).
    rewrite (MisicRegressor_fit_complete self X y w (VObj b) rs (VObj std)
               cat (VObj r) d od g e1 e2 e3 e4 e5 e6) by done.
    cbn [fst snd]. destruct Hc as (Hb & _).
    split_and!; try done.
    + rewrite MisicRegressor_fitted_attr. apply attr_store_eq.
      by eapply attr_allocated.
    + apply MisicRegressor_fitted_calls.
  - intros b r rs std cat e1 e2 x e3 Hcls Hc _ Hset Hclone Hfit out.
    subst out. rewrite (proj1 (fit_class self X y w) Hcls).
    rewrite (MisicRegressor_fit_stops self X y w (VObj b) rs std cat
               (VObj r) e1 e2 x e3) by done.
    cbn [fst snd]. destruct Hc as (Hb & _).
    autorewrite with world. rewrite <- !app_assoc.
    by split_and!.
  - intros w' _ [[_ Hfit]|[_ Hfit]]%fit_Ok_cases.
    + apply MisicRegressor_fit_Ok in Hfit
        as (b & rs & std & cat & r & d & od & g & e1 & e2 & e3 & e4 & e5 &
            e6 & Hb & _ & Hrs & Hcat & _ & _ & Hset & Hclone & _ & Hfit &
            _ & _ & _ & _ & _ & ->).
      exists b, rs, cat, r, e1, e2, e2, e3. eexists. split_and!; try done.
      * rewrite MisicRegressor_fitted_attr. apply attr_store_eq.
        by eapply attr_allocated.
      * by rewrite MisicRegressor_fitted_calls.
      * intros r' X' y' cf. unfold export_calls; cbn [app].
        rewrite !elem_of_cons, elem_of_nil. split.
        -- intros Hin.
           repeat (destruct Hin as [Hin|Hin]; try discriminate); try done.
           by simplify_eq.
        -- intros (-> & -> & -> & ->). auto 10.
    + apply EntingRegressor_fit_Ok in Hfit
        as (b & rs & std & cat & r & e1 & e2 & e3 & e4 &
            Hb & _ & Hrs & Hcat & _ & _ & Hset & Hclone & _ & _ & Hfit & ->).
      exists b, rs, cat, r, e1, e2, e3, e4. eexists. split_and!; try done.
      * rewrite EntingRegressor_fitted_attr. apply attr_store_eq.
        by eapply attr_allocated.
      * by rewrite EntingRegressor_fitted_calls.
      * intros r' X' y' cf. unfold export_calls; cbn [app].
        rewrite !elem_of_cons, elem_of_nil. split.
        -- intros Hin.
           repeat (destruct Hin as [Hin|Hin]; try discriminate); try done.
           by simplify_eq.
        -- intros (-> & -> & -> & ->). auto 10.
  - apply passed_categorical_list.
Qed.

(** C7. After a complete [fit], provided the collaborators keep their
    contract (a prediction has one entry per row of its input):
    [predict] without [return_std] returns the clone's prediction, one
    entry per row of [X']; with [return_std] it returns that prediction
    paired with what the uncertainty estimator's [predict] returns for
    [X'] and the [scaled] flag given, of the same length. *)
Theorem predict_after_fit_shape self X y w w1 (X' : matrix) (scaled : bool) :
  (∀ r X e v e', est_predict r X e = (Ok v, e') → length v = length X) →
  (∀ s X sc e v e', std_predict s X sc e = (Ok v, e') → length v = length X) →
  fit self X y w = (Ok tt, w1) →
  ∃ r std,
    attr w1 self "regressor_" = Some r ∧
    attr w1 self "std_estimator" = Some std ∧
    (∀ mean e1,
       est_predict r X' (ext w1) = (Ok mean, e1) →
       (predict self X' false scaled w1).1 = Ok (Mean mean) ∧
       length mean = length X' ∧
       ∀ sd e2,
         std_predict std X' scaled e1 = (Ok sd, e2) →
         (predict self X' true scaled w1).1 = Ok (MeanStd mean sd) ∧
         length sd = length mean) ∧
    (∀ return_std p,
       (predict self X' return_std scaled w1).1 = Ok p →
       match p with
       | Mean mean => return_std = false ∧ length mean = length X'
       | MeanStd mean sd =>
           return_std = true ∧ length mean = length X' ∧
           length sd = length mean
       end).
Proof.
  intros Hpredict Hstd_predict (r & std & Hr & Hobj & Hstd & Hostd)%fit_Ok_fitted.
  exists r, std. split_and!; try done.
  - intros mean e1 Hmean. rewrite !(predict_run _ _ _ _ _ r) by done.
    cbn zeta. rewrite Hmean, Hstd, Hostd. split_and!; [done|eauto|].
    intros sd e2 Hsd. rewrite Hsd. split; [done|].
    apply Hpredict in Hmean. apply Hstd_predict in Hsd. congruence.
  - intros return_std p. rewrite (predict_run _ _ _ _ _ r) by done.
    cbn zeta. rewrite Hstd, Hostd.
    destruct (est_predict r X' (ext w1)) as [[mean|e] e1] eqn:Hmean; [|done].
    apply Hpredict in Hmean.
    destruct return_std.
    + destruct (std_predict std X' scaled e1) as [[sd|e] e2] eqn:Hsd; [|done].
      apply Hstd_predict in Hsd. intros [= <-]. split_and!; congruence.
    + by intros [= <-].
Qed.

(** C8, as the code has it. With [base_estimator] None, [fit] raises
    the built-in [AttributeError] for [set_params] and changes nothing. With
    [std_estimator] None, [fit] never completes: it raises
    [AttributeError] for [update] once the calls before the update have
    succeeded (set_params and clone in Variant A; those, the clone's fit
    and the export with its file write in Variant B). No error of the
    adapter's own is defined. An exception raised by the clone's [fit], or
    by its [predict], is the exception [fit], or [predict], raises. *)
Theorem fit_missing_collaborator self X y w :
  (attr w self "base_estimator" = Some VNone →
     fit self X y w = (Raise (AttributeError "set_params"), w)) ∧
  (attr w self "std_estimator" = Some VNone →
     ∃ e, (fit self X y w).1 = Raise e) ∧
  (∀ b rs cat e1 r e2,
     configured w self b rs VNone cat →
     est_set_params b (fit_kwargs rs) (ext w) = (Ok tt, e1) →
     sk_clone b e1 = (Ok r, e2) →
     (EntingRegressor_fit self X y w).1 = Raise (AttributeError "update")) ∧
  (∀ b rs cat e1 r e2 e3 d e4 e5 od (g : gbm_model),
     configured w self b rs VNone cat →
     est_set_params b (fit_kwargs rs) (ext w) = (Ok tt, e1) →
     sk_clone b e1 = (Ok r, e2) → is_object r = true →
     est_fit r X y (passed_categorical cat) e2 = (Ok tt, e3) →
     booster_dump_model r e3 = (Ok d, e4) →
     fs_json_dump "tree_dict_next.json" d 4 false e4 = (None, e5) →
     order_tree_model_dict d cat = Ok od → GbmModel od = Ok g →
     (MisicRegressor_fit self X y w).1 = Raise (AttributeError "update")) ∧
  (∀ b rs std cat e1 r e2 e3 (e : exn) e4,
     configured w self b rs std cat → is_object std = true →
     est_set_params b (fit_kwargs rs) (ext w) = (Ok tt, e1) →
     sk_clone b e1 = (Ok r, e2) → is_object r = true →
     std_update std X y None cat e2 = (Ok tt, e3) →
     est_fit r X y (passed_categorical cat) e3 = (Raise e, e4) →
     (EntingRegressor_fit self X y w).1 = Raise e) ∧
  (∀ b rs std cat e1 r e2 (e : exn) e3,
     configured w self b rs std cat →
     est_set_params b (fit_kwargs rs) (ext w) = (Ok tt, e1) →
     sk_clone b e1 = (Ok r, e2) → is_object r = true →
     est_fit r X y (passed_categorical cat) e2 = (Raise e, e3) →
     (MisicRegressor_fit self X y w).1 = Raise e) ∧
  (∀ (return_std scaled : bool) r (e : exn) e1,
     attr w self "regressor_" = Some r → is_object r = true →
     est_predict r X (ext w) = (Raise e, e1) →
     (predict self X return_std scaled w).1 = Raise e).
Proof.
  split_and!.
  - apply fit_no_base_estimator.
  - apply fit_no_std_estimator.
  - intros. by eapply EntingRegressor_fit_no_std.
  - intros. by eapply MisicRegressor_fit_no_std.
  - intros. by eapply EntingRegressor_fit_propagates.
  - intros. by eapply MisicRegressor_fit_propagates.
  - intros. by eapply predict_propagates.
Qed.

(** C9. The unwrapping is not symmetric: an [EntingRegressor] built on a
    [MisicRegressor] takes the inner estimators of the latter, while a
    [MisicRegressor] built on an [EntingRegressor] stores that adapter
    itself, and the [std_estimator] argument. *)
Theorem construct_unwrap_asymmetric
    (a : loc) (std rs cat : value) (w : world) :
  let self := length (heap w) in
  (∀ b s,
     class_of w a = Some MisicRegressor →
     attr w a "base_estimator" = Some b →
     attr w a "std_estimator" = Some s →
     let w' := (new EntingRegressor (VAdapter a) std rs cat w).2 in
     (new EntingRegressor (VAdapter a) std rs cat w).1 = Ok self ∧
     class_of w' self = Some EntingRegressor ∧
     attr w' self "base_estimator" = Some b ∧
     attr w' self "std_estimator" = Some s) ∧
  (class_of w a = Some EntingRegressor →
     let w' := (new MisicRegressor (VAdapter a) std rs cat w).2 in
     (new MisicRegressor (VAdapter a) std rs cat w).1 = Ok self ∧
     class_of w' self = Some MisicRegressor ∧
     attr w' self "base_estimator" = Some (VAdapter a) ∧
     attr w' self "std_estimator" = Some std).
Proof.
  intros self; subst self. split.
  - intros b s Hc Hb Hs w'; subst w'.
    rewrite (new_unwrap EntingRegressor MisicRegressor a std rs cat w b s)
      by done.
    cbn [fst snd]. rewrite class_of_alloc, !attr_alloc, !decide_True by done.
    repeat split; by simplify_map_eq.
  - intros Hc w'; subst w'.
    rewrite new_plain by (by rewrite instance_of_class_of, Hc).
    cbn [fst snd]. rewrite class_of_alloc, !attr_alloc, !decide_True by done.
    destruct (fresh_attrs_lookup (VAdapter a) std rs cat) as (? & ? & _).
    by repeat split.
Qed.

(** C10. A complete [fit] of a [MisicRegressor] leaves the dump of the
    new clone in the file [tree_dict_next.json]: the file is written by the
    [get_gbm_model] call inside [fit], after the clone is fitted and before
    the uncertainty estimator is updated. *)
Theorem MisicRegressor_fit_writes_file self X y w w' :
  class_of w self = Some MisicRegressor →
  fit self X y w = (Ok tt, w') →
  ∃ b rs std cat r d od g,
    attr w' self "regressor_" = Some r ∧
    files w' = <["tree_dict_next.json" := json_dump d 4 false]> (files w) ∧
    files w' !! "tree_dict_next.json" = Some (json_dump d 4 false) ∧
    calls w' =
      calls w ++
      [ CallSetParams b (fit_kwargs rs); CallClone b;
        CallFit r X y (passed_categorical cat);
        CallDumpModel r;
        WriteFile "tree_dict_next.json" (json_dump d 4 false);
        CallOrderTreeModelDict d cat; CallGbmModel od;
        CallStdUpdate std X y (Some g) cat ].
Proof.
  intros Hc [[_ Hfit]|[Hne _]]%fit_Ok_cases; [|done].
  apply MisicRegressor_fit_Ok in Hfit
    as (b & rs & std & cat & r & d & od & g & e1 & e2 & e3 & e4 & e5 &
          e6 &
          Hb & _ & _ & _ & _ & _ & _ & _ & _ & _ & _ & _ & _ & _ & _ & ->).
  exists b, rs, std, cat, r, d, od, g. split_and!; [| done | |].
  - rewrite MisicRegressor_fitted_attr. apply attr_store_eq.
    by eapply attr_allocated.
  - rewrite MisicRegressor_fitted_files. apply lookup_insert_eq.
  - by rewrite MisicRegressor_fitted_calls.
Qed.

End Claims.

(** * Further properties *)

(** ** What any run can change or raise *)

Section Shape.
Context {collab : Collaborators}.
Implicit Types (w : world) (self : loc) (X : matrix) (y : vector).

Lemma attr_heap w1 w2 self name :
  heap w1 = heap w2 → attr w1 self name = attr w2 self name.
Proof. unfold attr. by intros ->. Qed.

Lemma class_of_heap w1 w2 self :
  heap w1 = heap w2 → class_of w1 self = class_of w2 self.
Proof. unfold class_of. by intros ->. Qed.

Lemma EntingRegressor_fit_shape self X y w res w' :
  EntingRegressor_fit self X y w = (res, w') →
  (heap w' = heap w ∨ ∃ r, heap w' = heap (store self "regressor_" r w)) ∧
  files w' = files w ∧
  (∀ e, res = Raise e → passed_through e).
Proof.
  unfold EntingRegressor_fit, passed_through. mrun.
  all: intros [= <- <-]; autorewrite with world.
  all: split_and!; [ first [by left | right; by eexists] | done
                   | intros e' [= <-]; passed ].
Qed.


Lemma MisicRegressor_fit_shape self X y w res w' :
  MisicRegressor_fit self X y w = (res, w') →
  (heap w' = heap w ∨ ∃ r, heap w' = heap (store self "regressor_" r w)) ∧
  (files w' = files w ∨
   ∃ text, files w' = <["tree_dict_next.json" := text]> (files w)) ∧
  (∀ e, res = Raise e → passed_through e).
Proof.
  unfold MisicRegressor_fit, get_gbm_model, passed_through. mrun.
  all: intros [= <- <-]; autorewrite with world.
  all: split_and!; [ first [by left | right; by eexists]
                   | first [by left | right; by eexists]
                   | intros e' [= <-]; passed ].
Qed.

Lemma set_params_shape self (params : kwargs) w res w' :
  set_params self params w = (res, w') →
  heap w' = heap w ∧ files w' = files w ∧
  (∀ e, res = Raise e → passed_through e).
Proof.
  unfold set_params, passed_through. mrun.
  all: intros [= <- <-]; autorewrite with world.
  all: split_and!; [done.. | intros e' [= <-]; passed ].
Qed.

Lemma predict_shape self X (return_std scaled : bool) w res w' :
  predict self X return_std scaled w = (res, w') →
  heap w' = heap w ∧ files w' = files w ∧
  (∀ e, res = Raise e → passed_through e).
Proof.
  unfold predict, passed_through. mrun.
  all: destruct return_std; mrun.
  all: intros [= <- <-]; autorewrite with world.
  all: split_and!; [done.. | intros e' [= <-]; passed ].
Qed.

Lemma get_gbm_model_shape self w res w' :
  get_gbm_model self w = (res, w') →
  heap w' = heap w ∧
  (files w' = files w ∨
   ∃ text, files w' = <["tree_dict_next.json" := text]> (files w)) ∧
  (∀ e, res = Raise e → passed_through e).
Proof.
  unfold get_gbm_model, passed_through. mrun.
  all: intros [= <- <-]; autorewrite with world.
  all: split_and!; [ done | first [by left | right; by eexists]
                   | intros e' [= <-]; passed ].
Qed.

Lemma fit_shape self X y w res w' :
  fit self X y w = (res, w') →
  (heap w' = heap w ∨ ∃ r, heap w' = heap (store self "regressor_" r w)) ∧
  (files w' = files w ∨
   class_of w self = Some MisicRegressor ∧
   ∃ text, files w' = <["tree_dict_next.json" := text]> (files w)) ∧
  (∀ e, res = Raise e → passed_through e).
Proof.
  unfold fit, class_of.
  destruct (cls <$> heap w !! self) as [[]|]; intros Hfit.
  1,3: apply EntingRegressor_fit_shape in Hfit as (? & ? & ?); eauto.
  apply MisicRegressor_fit_shape in Hfit as (? & [?|?] & ?); eauto.
Qed.

Lemma new_shape (c : adapter_class) (base std rs cat : value) w res w' :
  new c base std rs cat w = (res, w') →
  ∃ m : gmap string value,
    w' = alloc c m w ∧
    m !! "random_state" = Some rs ∧ m !! "cat_idx" = Some cat ∧
    m !! "regressor_" = None ∧
    (∀ self, res = Ok self → self = length (heap w)).
Proof.
  unfold new.
  destruct c; unfold EntingRegressor_init, MisicRegressor_init;
    munfold; unfold getattr_value.
  all: match goal with
       | |- context [if ?b then _ else _] => destruct b
       end.
  all: try destruct base; repeat mstep; intros [= <- <-].
  all: rewrite !store_alloc.
  all: eexists; split_and!; [reflexivity | by simplify_map_eq.. |].
  all: by intros self [= <-].
Qed.

Lemma ext_alloc w c (m : gmap string value) : ext (alloc c m w) = ext w.
Proof. done. Qed.
Lemma files_alloc w c (m : gmap string value) : files (alloc c m w) = files w.
Proof. done. Qed.
Lemma calls_alloc w c (m : gmap string value) : calls (alloc c m w) = calls w.
Proof. done. Qed.

Lemma set_params_same_base self self' (params : kwargs) w :
  attr w self "base_estimator" = attr w self' "base_estimator" →
  set_params self params w = set_params self' params w.
Proof.
  intros Heq. unfold set_params. munfold. by rewrite !getattr_attr, Heq.
Qed.

Lemma get_gbm_model_dumped self w (r : value) (d : tree_dict) e' e'' :
  attr w self "regressor_" = Some r → is_object r = true →
  booster_dump_model r (ext w) = (Ok d, e') →
  fs_json_dump "tree_dict_next.json" d 4 false e' = (None, e'') →
  heap (get_gbm_model self w).2 = heap w ∧
  ext (get_gbm_model self w).2 = e'' ∧
  files (get_gbm_model self w).2 =
    <["tree_dict_next.json" := json_dump d 4 false]> (files w).
Proof.
  intros Hr Hobj Hdump Hwrite. unfold get_gbm_model. munfold.
  rewrite getattr_attr, Hr. cbn beta iota. rewrite Hobj.
  autorewrite with world. rewrite Hdump. cbn beta iota.
  autorewrite with world. rewrite Hwrite.
  repeat mstep; cbn [fst snd]; by autorewrite with world.
Qed.

End Shape.

Section Further.
Context {collab : Collaborators}.
Implicit Types (w : world) (self : loc) (X : matrix) (y : vector).

(** X1. On an adapter whose base estimator is not itself an adapter,
    [fit], whatever its outcome, changes no attribute of any adapter except
    [regressor_] of the adapter it is called on, and no class. (A base
    estimator that is an adapter runs adapter code when cloned and fitted;
    that case is left out.) *)
Theorem fit_changes_only_regressor self X y w :
  (∀ a, attr w self "base_estimator" ≠ Some (VAdapter a)) →
  let w' := (fit self X y w).2 in
  (∀ self', class_of w' self' = class_of w self') ∧
  (∀ self' name,
     self' ≠ self ∨ name ≠ "regressor_" →
     attr w' self' name = attr w self' name).
Proof.
  intros _ w'; subst w'.
  destruct (fit self X y w) as [res w'] eqn:Hfit. cbn [snd].
  apply fit_shape in Hfit as ([Hheap|[r Hheap]] & _ & _).
  - split; intros; [by apply class_of_heap | by apply attr_heap].
  - split.
    + intros self'. rewrite (class_of_heap _ _ _ Hheap).
      apply class_of_store.
    + intros self' name Hne. rewrite (attr_heap _ _ _ _ Hheap).
      apply attr_store_ne. destruct Hne; [left|right]; congruence.
Qed.

(** X2. Variant A is not atomic: when the clone's [fit] raises, the
    exception leaves the adapter holding the new clone as [regressor_],
    with the uncertainty estimator already updated. *)
Theorem EntingRegressor_fit_failed_fit
    self X y w (b rs std cat r : value) e1 e2 e3 (e : exn) e4 :
  configured w self b rs std cat → is_object std = true →
  est_set_params b (fit_kwargs rs) (ext w) = (Ok tt, e1) →
  sk_clone b e1 = (Ok r, e2) → is_object r = true →
  std_update std X y None cat e2 = (Ok tt, e3) →
  est_fit r X y (passed_categorical cat) e3 = (Raise e, e4) →
  let out := EntingRegressor_fit self X y w in
  out.1 = Raise e ∧
  attr out.2 self "regressor_" = Some r ∧
  ext out.2 = e4 ∧
  calls out.2 = calls w ++ EntingRegressor_fit_calls b rs std cat r X y.
Proof.
  intros Hc Hostd Hset Hclone Hobj Hupd Hfit out; subst out.
  unfold EntingRegressor_fit, EntingRegressor_fit_calls.
  mrun_with cat; cbn [fst snd]; autorewrite with world;
    rewrite <- ?app_assoc; by split_and!.
Qed.

(** X3. Variant B: when the clone's [fit] raises, the adapter holds the
    new clone as [regressor_], nothing was exported or written, and the
    uncertainty estimator was not updated. *)
Theorem MisicRegressor_fit_failed_fit
    self X y w (b rs std cat r : value) e1 e2 (e : exn) e3 :
  configured w self b rs std cat →
  est_set_params b (fit_kwargs rs) (ext w) = (Ok tt, e1) →
  sk_clone b e1 = (Ok r, e2) → is_object r = true →
  est_fit r X y (passed_categorical cat) e2 = (Raise e, e3) →
  let out := MisicRegressor_fit self X y w in
  out.1 = Raise e ∧
  attr out.2 self "regressor_" = Some r ∧
  files out.2 = files w ∧
  calls out.2 =
    calls w ++
    [ CallSetParams b (fit_kwargs rs); CallClone b;
      CallFit r X y (passed_categorical cat) ].
Proof.
  intros Hc Hset Hclone Hobj Hfit out; subst out.
  unfold MisicRegressor_fit, get_gbm_model.
  mrun_with cat; cbn [fst snd]; autorewrite with world;
    rewrite <- ?app_assoc; by split_and!.
Qed.

(** X4. [fit] writes to no path but [tree_dict_next.json], and Variant A's
    [fit] writes no file at all, whatever the outcome. *)
Theorem fit_files self X y w :
  let w' := (fit self X y w).2 in
  (∀ path, path ≠ "tree_dict_next.json" → files w' !! path = files w !! path) ∧
  (class_of w self = Some EntingRegressor → files w' = files w).
Proof.
  intros w'; subst w'.
  destruct (fit self X y w) as [res w'] eqn:Hfit. cbn [snd].
  apply fit_shape in Hfit as (_ & [Hf|(Hc & d & Hf)] & _); rewrite Hf.
  - done.
  - split.
    + intros path Hne. by rewrite lookup_insert_ne.
    + intros Hc'. congruence.
Qed.

(** X5. No sequence of [set_params], [predict] and [get_gbm_model] calls
    changes an attribute or the class of any adapter, or a file other than
    [tree_dict_next.json]. *)
Theorem other_ops_frame self (ops : list other_op) w :
  let w' := foldl (run_other self) w ops in
  (∀ self', class_of w' self' = class_of w self') ∧
  (∀ self' name, attr w' self' name = attr w self' name) ∧
  (∀ path, path ≠ "tree_dict_next.json" → files w' !! path = files w !! path).
Proof.
  intros w'; subst w'. revert w.
  induction ops as [|op ops IH]; intros w; [done|].
  cbn [foldl]. destruct (IH (run_other self w op)) as (IHc & IHa & IHf).
  assert (heap (run_other self w op) = heap w ∧
          ∀ path, path ≠ "tree_dict_next.json" →
                  files (run_other self w op) !! path = files w !! path)
    as [Hheap Hfiles].
  { destruct op as [params|X' return_std scaled|]; cbn [run_other].
    - destruct (set_params self params w) as [res w'] eqn:Hrun.
      apply set_params_shape in Hrun as (? & Hf & _). cbn [snd].
      by rewrite Hf.
    - destruct (predict self X' return_std scaled w) as [res w'] eqn:Hrun.
      apply predict_shape in Hrun as (? & Hf & _). cbn [snd].
      by rewrite Hf.
    - destruct (get_gbm_model self w) as [res w'] eqn:Hrun.
      apply get_gbm_model_shape in Hrun as (? & [Hf|[d Hf]] & _);
        cbn [snd]; rewrite Hf; [done|].
      split; [done|]. intros path Hne. by rewrite lookup_insert_ne. }
  split_and!.
  - intros self'. rewrite IHc. by apply class_of_heap.
  - intros self' name. rewrite IHa. by apply attr_heap.
  - intros path Hne. rewrite IHf by done. by apply Hfiles.
Qed.

(** X6. [predict] without [return_std] never consults the uncertainty
    estimator: whatever [std_estimator] holds, it makes the one call to
    the fitted clone's [predict] and returns its answer. *)
Theorem predict_mean_only self X (scaled : bool) w (r : value) :
  attr w self "regressor_" = Some r → is_object r = true →
  let out := predict self X false scaled w in
  let ans := est_predict r X (ext w) in
  out.1 = match ans.1 with Ok mean => Ok (Mean mean) | Raise e => Raise e end ∧
  calls out.2 = calls w ++ [CallPredict r X] ∧
  ext out.2 = ans.2.
Proof.
  intros Hr Hobj out ans; subst out ans.
  rewrite (predict_run _ _ _ _ _ r) by done. cbn zeta.
  by destruct (est_predict r X (ext w)) as [[mean|e] e1].
Qed.

(** X7. [predict] with [return_std] on an adapter whose [std_estimator] is
    not an object (None, say) raises [AttributeError] only after the
    fitted clone has predicted: the mean is computed and lost. *)
Theorem predict_std_missing self X (scaled : bool) w (r std : value)
    (mean : vector) e1 :
  attr w self "regressor_" = Some r → is_object r = true →
  attr w self "std_estimator" = Some std → is_object std = false →
  est_predict r X (ext w) = (Ok mean, e1) →
  predict self X true scaled w =
    (Raise (AttributeError "predict"),
     set_ext e1 (record (CallPredict r X) w)).
Proof.
  intros Hr Hobj Hstd Hostd Hmean.
  rewrite (predict_run _ _ _ _ _ r) by done. cbn zeta.
  by rewrite Hmean, Hstd, Hostd.
Qed.

(** X8. When the dump of the fitted clone raises, [get_gbm_model] raises
    the same exception and writes no file. *)
Theorem get_gbm_model_failed_dump self w (r : value) (e : exn) e' :
  attr w self "regressor_" = Some r → is_object r = true →
  booster_dump_model r (ext w) = (Raise e, e') →
  get_gbm_model self w = (Raise e, set_ext e' (record (CallDumpModel r) w)) ∧
  files (get_gbm_model self w).2 = files w.
Proof.
  intros Hr Hobj Hdump.
  assert (get_gbm_model self w =
          (Raise e, set_ext e' (record (CallDumpModel r) w))) as ->.
  { unfold get_gbm_model. munfold.
    rewrite getattr_attr, Hr. cbn beta iota. rewrite Hobj.
    autorewrite with world. by rewrite Hdump. }
  done.
Qed.

(** X9. Exporting twice overwrites: after two [get_gbm_model] calls whose
    dumps and file writes succeed, the file holds the second dump, and the
    files are as if only the second export had run. *)
Theorem get_gbm_model_twice self w (r : value) (d1 d2 : tree_dict)
    e1 e1' e2 e2' :
  attr w self "regressor_" = Some r → is_object r = true →
  booster_dump_model r (ext w) = (Ok d1, e1) →
  fs_json_dump "tree_dict_next.json" d1 4 false e1 = (None, e1') →
  booster_dump_model r e1' = (Ok d2, e2) →
  fs_json_dump "tree_dict_next.json" d2 4 false e2 = (None, e2') →
  let w1 := (get_gbm_model self w).2 in
  let w2 := (get_gbm_model self w1).2 in
  files w2 = <["tree_dict_next.json" := json_dump d2 4 false]> (files w) ∧
  files w2 !! "tree_dict_next.json" = Some (json_dump d2 4 false).
Proof.
  intros Hr Hobj Hd1 Hw1 Hd2 Hw2 w1 w2; subst w1 w2.
  destruct (get_gbm_model_dumped self w r d1 e1 e1' Hr Hobj Hd1 Hw1)
    as (Hheap1 & Hext1 & Hfiles1).
  destruct (get_gbm_model_dumped self (get_gbm_model self w).2 r d2 e2 e2')
    as (_ & _ & Hfiles2).
  - by rewrite (attr_heap _ w).
  - done.
  - by rewrite Hext1.
  - done.
  - rewrite Hfiles2, Hfiles1, insert_insert_eq.
    split; [done|]. apply lookup_insert_eq.
Qed.

(** X10. Construction calls no collaborator, writes no file and leaves
    every existing adapter as it was. The new adapter sits at the next
    address, keeps the [random_state] and [cat_idx] it was given even when
    it unwraps, and has no [regressor_]: wrapping a fitted adapter gives an
    unfitted one. *)
Theorem new_frame (c : adapter_class) (base std rs cat : value) w :
  let out := new c base std rs cat w in
  ext out.2 = ext w ∧ files out.2 = files w ∧ calls out.2 = calls w ∧
  (∀ a, (a < length (heap w))%nat →
        class_of out.2 a = class_of w a ∧
        ∀ name, attr out.2 a name = attr w a name) ∧
  (∀ self, out.1 = Ok self →
        self = length (heap w) ∧
        class_of out.2 self = Some c ∧
        attr out.2 self "random_state" = Some rs ∧
        attr out.2 self "cat_idx" = Some cat ∧
        attr out.2 self "regressor_" = None).
Proof.
  intros out; subst out.
  destruct (new c base std rs cat w) as [res w'] eqn:Hnew. cbn [fst snd].
  apply new_shape in Hnew as (m & -> & Hrs & Hcat & Hreg & Hself).
  split_and!; try done.
  - intros a Ha. split.
    + rewrite class_of_alloc. rewrite decide_False; [done|lia].
    + intros name. rewrite attr_alloc. rewrite decide_False; [done|lia].
  - intros self ->%Hself.
    rewrite class_of_alloc, !attr_alloc, !decide_True by done. done.
Qed.

(** X11. An adapter built on another of its class shares that adapter's
    base estimator: [set_params] through either one is the same call on
    the same object. *)
Theorem wrapper_shares_base_estimator
    (c d : adapter_class) (a : loc) (std rs cat b s : value) w
    (params : kwargs) :
  class_of w a = Some d → subclass d c = true →
  attr w a "base_estimator" = Some b →
  attr w a "std_estimator" = Some s →
  let self := length (heap w) in
  let w' := (new c (VAdapter a) std rs cat w).2 in
  (new c (VAdapter a) std rs cat w).1 = Ok self ∧
  attr w' self "std_estimator" = attr w' a "std_estimator" ∧
  set_params self params w' = set_params a params w'.
Proof.
  intros Hc Hsub Hb Hs self w'; subst self w'.
  pose proof (class_of_allocated _ _ _ Hc) as Hlt.
  rewrite (new_unwrap c d a std rs cat w b s) by done. cbn [fst snd].
  assert (∀ name,
            attr (alloc c
                    (<["std_estimator" := s]> (<["base_estimator" := b]>
                       (fresh_attrs (VAdapter a) std rs cat))) w) a name =
            attr w a name) as Hold.
  { intros name. rewrite attr_alloc. rewrite decide_False; [done|lia]. }
  split_and!; [done| |].
  - rewrite Hold, Hs, attr_alloc, decide_True by done. by simplify_map_eq.
  - apply set_params_same_base.
    rewrite Hold, Hb, attr_alloc, decide_True by done. by simplify_map_eq.
Qed.


(** X13. After a complete [fit], [predict] and [get_gbm_model] address
    the clone made in that fit, never the stored base estimator. *)
Theorem fitted_clone_is_used self X y w w1 :
  fit self X y w = (Ok tt, w1) →
  ∃ (b rs r : value) e1 e2,
    attr w self "base_estimator" = Some b ∧
    attr w self "random_state" = Some rs ∧
    est_set_params b (fit_kwargs rs) (ext w) = (Ok tt, e1) ∧
    sk_clone b e1 = (Ok r, e2) ∧
    (∀ X' (return_std scaled : bool),
       ∃ rest,
         calls (predict self X' return_std scaled w1).2 =
         calls w1 ++ CallPredict r X' :: rest ∧
         ∀ recv X'', CallPredict recv X'' ∈ rest → False) ∧
    (∃ rest,
       calls (get_gbm_model self w1).2 =
       calls w1 ++ CallDumpModel r :: rest).
Proof.
  intros Hfit.
  assert (∃ (b rs r : value) e1 e2,
            attr w self "base_estimator" = Some b ∧
            attr w self "random_state" = Some rs ∧
            est_set_params b (fit_kwargs rs) (ext w) = (Ok tt, e1) ∧
            sk_clone b e1 = (Ok r, e2) ∧
            attr w1 self "regressor_" = Some r ∧ is_object r = true)
    as (b & rs & r & e1 & e2 & Hb & Hrs & Hset & Hclone & Hr & Hobj).
  { apply fit_Ok_cases in Hfit as [[_ Hfit]|[_ Hfit]].
    - apply MisicRegressor_fit_Ok in Hfit
        as (b & rs & std & cat & r & d & od & g & e1 & e2 & e3 & e4 & e5 &
          e6 &
          Hb & _ & Hrs & _ & _ & _ & Hset & Hclone & Hobj & _ & _ & _ & _ &
          _ & _ & ->).
      exists b, rs, r, e1, e2. split_and!; try done.
      rewrite MisicRegressor_fitted_attr. apply attr_store_eq.
      by eapply attr_allocated.
    - apply EntingRegressor_fit_Ok in Hfit
        as (b & rs & std & cat & r & e1 & e2 & e3 & e4 &
            Hb & _ & Hrs & _ & _ & _ & Hset & Hclone & Hobj & _ & _ & ->).
      exists b, rs, r, e1, e2. split_and!; try done.
      rewrite EntingRegressor_fitted_attr. apply attr_store_eq.
      by eapply attr_allocated. }
  exists b, rs, r, e1, e2. split_and!; try done.
  - intros X' return_std scaled.
    rewrite (predict_run _ _ _ _ _ r) by done. cbn zeta.
    destruct (est_predict r X' (ext w1)) as [[mean|e] e1'];
      [destruct return_std|];
      [destruct (attr w1 self "std_estimator") as [std|];
         [destruct (is_object std);
            [destruct (std_predict std X' scaled e1') as [[sd|e] e2']|]|]
      | |].
    all: cbn [snd]; autorewrite with world; rewrite <- ?app_assoc;
      cbn [app]; eexists; split; [reflexivity|].
    all: intros recv X''; rewrite ?elem_of_cons, elem_of_nil;
      intros Hin; repeat (destruct Hin as [Hin|Hin]; try discriminate); done.
  - unfold get_gbm_model. munfold.
    rewrite getattr_attr, Hr. cbn beta iota. rewrite Hobj.
    repeat mstep; cbn [snd]; autorewrite with world;
      rewrite <- ?app_assoc; cbn [app]; by eexists.
Qed.

(** X14. Variant B: when the file cannot be opened or written, [fit]
    raises that exception after the clone was fitted and its structure
    dumped; the adapter holds the new clone as [regressor_], nothing was
    normalised, and the uncertainty estimator was not updated, whether
    one is set or not. *)
Theorem MisicRegressor_fit_failed_write
    self X y w (b rs std cat r : value) (d : tree_dict)
    e1 e2 e3 e4 (x : exn) (part : option string) e5 :
  configured w self b rs std cat →
  est_set_params b (fit_kwargs rs) (ext w) = (Ok tt, e1) →
  sk_clone b e1 = (Ok r, e2) → is_object r = true →
  est_fit r X y (passed_categorical cat) e2 = (Ok tt, e3) →
  booster_dump_model r e3 = (Ok d, e4) →
  fs_json_dump "tree_dict_next.json" d 4 false e4 = (Some (x, part), e5) →
  let out := MisicRegressor_fit self X y w in
  out.1 = Raise x ∧
  attr out.2 self "regressor_" = Some r ∧
  ext out.2 = e5 ∧
  files out.2 =
    match part with
    | Some half => <["tree_dict_next.json" := half]> (files w)
    | None => files w
    end ∧
  calls out.2 =
    calls w ++
    [ CallSetParams b (fit_kwargs rs);
      CallClone b;
      CallFit r X y (passed_categorical cat);
      CallDumpModel r;
      WriteFile "tree_dict_next.json" (json_dump d 4 false) ].
Proof.
  intros Hc Hset Hclone Hobj Hfit Hdump Hwrite out; subst out.
  unfold MisicRegressor_fit, get_gbm_model.
  mrun_with cat.
  all: destruct part; repeat mstep.
  all: cbn [fst snd]; autorewrite with world.
  all: rewrite <- ?app_assoc; by split_and!.
Qed.

End Further.

(** * The properties on the test doubles *)

Section OnReadOnly.
Import ReadOnly.

(** C5 as the specification words it fails: with a directory in the way
    of the file, the export of a fitted adapter dumps the model, writes
    nothing and returns no structure. *)
Lemma get_gbm_model_unwritable_no_file :
  fit 0%nat Double.X0 Double.y0
    (new EntingRegressor (VObj 0) (VObj 1) VNone default_cat_idx
       (World [] 1%nat ∅ [])).2 = (Ok tt, ReadOnly.w_fitted) ∧
  attr ReadOnly.w_fitted 0%nat "regressor_" = Some (VObj 2) ∧
  booster_dump_model (VObj 2) (ext ReadOnly.w_fitted) =
    (Ok "{tree_info: []}", 2%nat) ∧
  (get_gbm_model 0%nat ReadOnly.w_fitted).1 =
    Raise (Foreign "IsADirectoryError" "tree_dict_next.json") ∧
  files (get_gbm_model 0%nat ReadOnly.w_fitted).2 !! "tree_dict_next.json" =
    None.
Proof. split_and!; vm_compute; reflexivity. Qed.

(** X14, with a directory in the way and no uncertainty estimator: the
    file error comes first. *)
Lemma MisicRegressor_fit_failed_write_witness :
  configured w_misic_no_std 0%nat (VObj 0) (VInt 7) VNone (VList [1]) ∧
  let out := MisicRegressor_fit 0%nat Double.X0 Double.y0 w_misic_no_std in
  out.1 = Raise (Foreign "IsADirectoryError" "tree_dict_next.json") ∧
  attr out.2 0%nat "regressor_" = Some (VObj 2) ∧
  ext out.2 = 2%nat ∧
  files out.2 = files w_misic_no_std ∧
  calls out.2 =
    calls w_misic_no_std ++
    [ CallSetParams (VObj 0) (fit_kwargs (VInt 7));
      CallClone (VObj 0);
      CallFit (VObj 2) Double.X0 Double.y0 (passed_categorical (VList [1]));
      CallDumpModel (VObj 2);
      WriteFile "tree_dict_next.json" "{tree_info: []}" ].
Proof.
  assert (configured w_misic_no_std 0%nat (VObj 0) (VInt 7) VNone (VList [1]))
    as Hc by (repeat split; vm_compute; reflexivity).
  exact (conj Hc
    (MisicRegressor_fit_failed_write 0%nat Double.X0 Double.y0
       w_misic_no_std (VObj 0) (VInt 7) VNone (VList [1]) (VObj 2)
       "{tree_info: []}" 1%nat 2%nat 2%nat 2%nat
       (Foreign "IsADirectoryError" "tree_dict_next.json") None 2%nat
       Hc eq_refl eq_refl eq_refl eq_refl eq_refl eq_refl)).
Defined.

End OnReadOnly.

Section OnFaulty.
Import Faulty.


(** X8, on a test double. *)
Lemma get_gbm_model_failed_dump_witness :
  attr Faulty.w_fitted 0%nat "regressor_" = Some (VObj 2) ∧
  is_object (VObj 2) = true ∧
  booster_dump_model (VObj 2) (ext Faulty.w_fitted) =
    (Raise (Foreign "LightGBMError" "no booster"), 2%nat) ∧
  get_gbm_model 0%nat Faulty.w_fitted =
    (Raise (Foreign "LightGBMError" "no booster"),
     set_ext 2%nat (record (CallDumpModel (VObj 2)) Faulty.w_fitted)) ∧
  files (get_gbm_model 0%nat Faulty.w_fitted).2 = files Faulty.w_fitted.
Proof.
  assert (attr Faulty.w_fitted 0%nat "regressor_" = Some (VObj 2)) as Hr
    by (vm_compute; reflexivity).
  assert (booster_dump_model (VObj 2) (ext Faulty.w_fitted) =
          (Raise (Foreign "LightGBMError" "no booster"), 2%nat)) as Hd
    by (vm_compute; reflexivity).
  exact (conj Hr (conj eq_refl (conj Hd
    (get_gbm_model_failed_dump 0%nat Faulty.w_fitted (VObj 2) _ _
       Hr eq_refl Hd)))).
Defined.

End OnFaulty.

(** * The claims on the test double *)

Import Double.

(** C3, on the test double: an [EntingRegressor] built on an
    [EntingRegressor]. *)
Lemma construct_unwraps_witness :
  class_of w_enting 0%nat = Some EntingRegressor ∧
  attr w_enting 0%nat "base_estimator" = Some (VObj 0) ∧
  attr w_enting 0%nat "std_estimator" = Some (VObj 1) ∧
  let w' :=
    (new EntingRegressor (VAdapter 0) (VObj 5) VNone default_cat_idx
       w_enting).2 in
  (new EntingRegressor (VAdapter 0) (VObj 5) VNone default_cat_idx
     w_enting).1 = Ok 1%nat ∧
  class_of w' 1%nat = Some EntingRegressor ∧
  attr w' 1%nat "base_estimator" = Some (VObj 0) ∧
  attr w' 1%nat "std_estimator" = Some (VObj 1).
Proof.
  split_and!; [vm_compute; reflexivity..|].
  apply (proj1 (construct_unwraps_same_variant EntingRegressor (VAdapter 0)
                  (VObj 5) VNone default_cat_idx w_enting)
           0%nat (VObj 0) (VObj 1));
    vm_compute; reflexivity.
Defined.

(** C1, on the test double: a complete fit of each variant, a Variant A
    fit whose update raises on an empty data set, and a Variant B fit
    whose clone rejects a short target vector. *)
Lemma fit_update_order_witness :
  configured w_enting 0%nat (VObj 0) VNone (VObj 1) (VList []) ∧
  (let out := EntingRegressor_fit 0%nat X0 y0 w_enting in
   out.1 = Ok tt ∧
   ext out.2 = 2%nat ∧
   attr out.2 0%nat "regressor_" = Some (VObj 2) ∧
   files out.2 = files w_enting ∧
   calls out.2 =
     calls w_enting ++
     EntingRegressor_fit_calls (VObj 0) VNone (VObj 1) (VList []) (VObj 2)
       X0 y0) ∧
  (let out := EntingRegressor_fit 0%nat [] [] w_enting in
   out.1 = Raise (Foreign "ValueError" "no samples") ∧
   ext out.2 = 2%nat ∧
   calls out.2 =
     calls w_enting ++
     [ CallSetParams (VObj 0) (fit_kwargs VNone);
       CallClone (VObj 0);
       CallStdUpdate (VObj 1) [] [] None (VList []) ]) ∧
  (∃ ev,
     calls (EntingRegressor_fit 0%nat X0 y0 w_enting).2 =
       calls w_enting ++ ev ∧
     update_before_fit (stored w_enting 0%nat "std_estimator")
       (stored w_enting 0%nat "cat_idx") X0 y0 ev) ∧
  configured w_misic 0%nat (VObj 0) (VInt 7) (VObj 1) (VList [1]) ∧
  (let out := MisicRegressor_fit 0%nat X0 y0 w_misic in
   out.1 = Ok tt ∧
   ext out.2 = 2%nat ∧
   attr out.2 0%nat "regressor_" = Some (VObj 2) ∧
   files out.2 =
     <["tree_dict_next.json" := "{tree_info: []}"]> (files w_misic) ∧
   calls out.2 =
     calls w_misic ++
     MisicRegressor_fit_calls (VObj 0) (VInt 7) (VObj 1) (VList [1])
       (VObj 2) "{tree_info: []}" "{tree_info: []}" "{tree_info: []}"
       X0 y0) ∧
  (let out := MisicRegressor_fit 0%nat X0 y_short w_misic in
   out.1 = Raise (Foreign "ValueError" "inconsistent numbers of samples") ∧
   ext out.2 = 2%nat ∧
   files out.2 = files w_misic ∧
   calls out.2 =
     calls w_misic ++
     [ CallSetParams (VObj 0) (fit_kwargs (VInt 7));
       CallClone (VObj 0);
       CallFit (VObj 2) X0 y_short (passed_categorical (VList [1])) ]) ∧
  (∃ ev,
     calls (MisicRegressor_fit 0%nat X0 y0 w_misic).2 =
       calls w_misic ++ ev ∧
     update_after_export (stored w_misic 0%nat "std_estimator")
       (stored w_misic 0%nat "cat_idx") X0 y0 ev).
Proof.
  assert (configured w_enting 0%nat (VObj 0) VNone (VObj 1) (VList []))
    as HcA by (repeat split; vm_compute; reflexivity).
  assert (configured w_misic 0%nat (VObj 0) (VInt 7) (VObj 1) (VList [1]))
    as HcB by (repeat split; vm_compute; reflexivity).
  assert (∀ o, VList [] ≠ VObj o) as HpA by (intros o H; discriminate H).
  assert (∀ o, VList [1] ≠ VObj o) as HpB by (intros o H; discriminate H).
  assert (∀ o, attr w_enting 0%nat "cat_idx" ≠ Some (VObj o)) as HqA
    by (intros o H; vm_compute in H; discriminate H).
  assert (∀ o, attr w_misic 0%nat "cat_idx" ≠ Some (VObj o)) as HqB
    by (intros o H; vm_compute in H; discriminate H).
  destruct (fit_update_order 0%nat X0 y0 w_enting)
    as (HA & _ & HtA & _).
  destruct (fit_update_order 0%nat [] [] w_enting) as (_ & HsA & _).
  destruct (fit_update_order 0%nat X0 y0 w_misic)
    as (_ & _ & _ & HB & _ & HtB).
  destruct (fit_update_order 0%nat X0 y_short w_misic)
    as (_ & _ & _ & _ & HsB & _).
  exact (conj HcA (conj
    (HA 0%nat 1%nat 2%nat VNone (VList []) 1%nat 2%nat 2%nat
        HcA HpA eq_refl eq_refl eq_refl)
    (conj
    (HsA 0%nat 1%nat 2%nat VNone (VList []) 1%nat 2%nat
         (Foreign "ValueError" "no samples") 2%nat
         HcA HpA eq_refl eq_refl eq_refl)
    (conj (HtA HqA)
    (conj HcB (conj
    (HB 0%nat 1%nat 2%nat (VInt 7) (VList [1])
        "{tree_info: []}" "{tree_info: []}" "{tree_info: []}"
        1%nat 2%nat 2%nat 2%nat 2%nat
        HcB HpB eq_refl eq_refl eq_refl eq_refl eq_refl eq_refl eq_refl)
    (conj
    (HsB 0%nat 2%nat (VInt 7) (VObj 1) (VList [1]) 1%nat 2%nat
         (Foreign "ValueError" "inconsistent numbers of samples") 2%nat
         HcB HpB eq_refl eq_refl eq_refl)
    (HtB HqB)))))))).
Defined.

(** C2, on the test double: a new adapter, configured and queried but
    never fitted. *)
Lemma predict_before_fit_witness :
  new EntingRegressor (VObj 0) (VObj 1) VNone default_cat_idx w0 =
    (Ok 0%nat, w_enting) ∧
  let w1 :=
    foldl (run_other 0%nat) w_enting
      [OpSetParams ∅; OpPredict X0 true true; OpGetGbmModel] in
  predict 0%nat X0 false true w1 = (Raise (AttributeError "regressor_"), w1) ∧
  get_gbm_model 0%nat w1 = (Raise (AttributeError "regressor_"), w1).
Proof.
  split; [vm_compute; reflexivity|].
  apply (predict_before_fit_AttributeError EntingRegressor (VObj 0) (VObj 1)
           VNone default_cat_idx w0).
  vm_compute; reflexivity.
Defined.

(** C2 as the specification words it fails: on a new adapter the error is
    not a [NotFittedError]. *)
Lemma predict_before_fit_not_NotFittedError :
  new EntingRegressor (VObj 0) (VObj 1) VNone default_cat_idx w0 =
    (Ok 0%nat, w_enting) ∧
  ¬ raises_class (predict 0%nat X0 false true w_enting).1 "NotFittedError" ∧
  ¬ raises_class (get_gbm_model 0%nat w_enting).1 "NotFittedError".
Proof.
  split; [vm_compute; reflexivity|].
  split; intros (e & He & Hcls); vm_compute in He;
    injection He as <-; discriminate Hcls.
Qed.

(** C4, on the test double: [set_params(num_leaves=31)]. *)
Lemma set_params_default_witness :
  attr w_enting 0%nat "base_estimator" = Some (VObj 0) ∧
  is_object (VObj 0) = true ∧
  ∃ forwarded : kwargs,
    set_params 0%nat {[ "num_leaves" := VInt 31 ]} w_enting =
      (let '(r, e) := est_set_params (VObj 0) forwarded (ext w_enting) in
       (r, set_ext e (record (CallSetParams (VObj 0) forwarded) w_enting))) ∧
    (({[ "num_leaves" := VInt 31 ]} : kwargs) !! "min_child_samples" = None →
       forwarded !! "min_child_samples" = Some (VInt 2)) ∧
    (∀ v, ({[ "num_leaves" := VInt 31 ]} : kwargs) !! "min_child_samples"
            = Some v →
          forwarded = {[ "num_leaves" := VInt 31 ]}) ∧
    (∀ k, k ≠ "min_child_samples" →
          forwarded !! k = ({[ "num_leaves" := VInt 31 ]} : kwargs) !! k).
Proof.
  split_and!; [vm_compute; reflexivity | reflexivity |].
  apply set_params_default_min_child_samples; [vm_compute|]; reflexivity.
Defined.

(** C5, on the test double: the export of a fitted adapter. *)
Lemma get_gbm_model_writes_witness :
  attr w_enting_fitted 0%nat "regressor_" = Some (VObj 2) ∧
  is_object (VObj 2) = true ∧
  attr w_enting_fitted 0%nat "cat_idx" = Some (VList []) ∧
  booster_dump_model (VObj 2) (ext w_enting_fitted) =
    (Ok "{tree_info: []}", 2%nat) ∧
  ∃ rest,
    calls (get_gbm_model 0%nat w_enting_fitted).2 =
      calls w_enting_fitted ++
      [ CallDumpModel (VObj 2);
        WriteFile "tree_dict_next.json" "{tree_info: []}" ] ++ rest ∧
    files (get_gbm_model 0%nat w_enting_fitted).2 =
      <["tree_dict_next.json" := "{tree_info: []}"]>
        (files w_enting_fitted) ∧
    (get_gbm_model 0%nat w_enting_fitted).1 = Ok "{tree_info: []}" ∧
    rest =
      [ CallOrderTreeModelDict "{tree_info: []}" (VList []);
        CallGbmModel "{tree_info: []}" ].
Proof.
  assert (attr w_enting_fitted 0%nat "regressor_" = Some (VObj 2)) as Hr
    by (vm_compute; reflexivity).
  assert (attr w_enting_fitted 0%nat "cat_idx" = Some (VList [])) as Hc
    by (vm_compute; reflexivity).
  assert (booster_dump_model (VObj 2) (ext w_enting_fitted) =
          (Ok "{tree_info: []}", 2%nat)) as Hd
    by (vm_compute; reflexivity).
  refine (conj Hr (conj eq_refl (conj Hc (conj Hd _)))).
  destruct (get_gbm_model_writes_file 0%nat w_enting_fitted (VObj 2)
              (VList []) "{tree_info: []}" 2%nat Hr eq_refl Hc Hd)
    as (rest & Hcalls & Hfiles & Hres & Hrest).
  exact (ex_intro _ rest (conj Hcalls (conj Hfiles (conj Hres Hrest)))).
Defined.

(** C6, on the test double: a complete fit of each variant, a Variant B
    fit whose clone rejects a short target vector, and what a complete fit
    tells. *)
Lemma fit_clones_witness :
  class_of w_enting 0%nat = Some EntingRegressor ∧
  configured w_enting 0%nat (VObj 0) VNone (VObj 1) (VList []) ∧
  (let out := fit 0%nat X0 y0 w_enting in
   out.1 = Ok tt ∧
   ext out.2 = 2%nat ∧
   attr out.2 0%nat "regressor_" = Some (VObj 2) ∧
   calls out.2 =
     calls w_enting ++
     EntingRegressor_fit_calls (VObj 0) VNone (VObj 1) (VList []) (VObj 2)
       X0 y0) ∧
  class_of w_misic 0%nat = Some MisicRegressor ∧
  configured w_misic 0%nat (VObj 0) (VInt 7) (VObj 1) (VList [1]) ∧
  (let out := fit 0%nat X0 y0 w_misic in
   out.1 = Ok tt ∧
   ext out.2 = 2%nat ∧
   attr out.2 0%nat "regressor_" = Some (VObj 2) ∧
   calls out.2 =
     calls w_misic ++
     MisicRegressor_fit_calls (VObj 0) (VInt 7) (VObj 1) (VList [1])
       (VObj 2) "{tree_info: []}" "{tree_info: []}" "{tree_info: []}"
       X0 y0) ∧
  (let out := fit 0%nat X0 y_short w_misic in
   out.1 = Raise (Foreign "ValueError" "inconsistent numbers of samples") ∧
   ext out.2 = 2%nat ∧
   attr out.2 0%nat "regressor_" = Some (VObj 2) ∧
   calls out.2 =
     calls w_misic ++
     [ CallSetParams (VObj 0) (fit_kwargs (VInt 7));
       CallClone (VObj 0);
       CallFit (VObj 2) X0 y_short (passed_categorical (VList [1])) ]) ∧
  fit 0%nat X0 y0 w_enting = (Ok tt, w_enting_fitted) ∧
  ∃ b rs cat r e1 e2 e3 e4 rest,
    attr w_enting 0%nat "base_estimator" = Some b ∧
    attr w_enting 0%nat "random_state" = Some rs ∧
    attr w_enting 0%nat "cat_idx" = Some cat ∧
    est_set_params b (fit_kwargs rs) (ext w_enting) = (Ok tt, e1) ∧
    sk_clone b e1 = (Ok r, e2) ∧
    est_fit r X0 y0 (passed_categorical cat) e3 = (Ok tt, e4) ∧
    attr w_enting_fitted 0%nat "regressor_" = Some r ∧
    calls w_enting_fitted =
      calls w_enting ++
      CallSetParams b (fit_kwargs rs) :: CallClone b :: rest ∧
    (∀ r' X' y' cf,
       CallFit r' X' y' cf ∈ rest ↔
       r' = r ∧ X' = X0 ∧ y' = y0 ∧ cf = passed_categorical cat).
Proof.
  assert (class_of w_enting 0%nat = Some EntingRegressor) as HclsA
    by (vm_compute; reflexivity).
  assert (class_of w_misic 0%nat = Some MisicRegressor) as HclsB
    by (vm_compute; reflexivity).
  assert (configured w_enting 0%nat (VObj 0) VNone (VObj 1) (VList []))
    as HcA by (repeat split; vm_compute; reflexivity).
  assert (configured w_misic 0%nat (VObj 0) (VInt 7) (VObj 1) (VList [1]))
    as HcB by (repeat split; vm_compute; reflexivity).
  assert (∀ o, VList [] ≠ VObj o) as HpA by (intros o H; discriminate H).
  assert (∀ o, VList [1] ≠ VObj o) as HpB by (intros o H; discriminate H).
  assert (∀ o, attr w_enting 0%nat "cat_idx" ≠ Some (VObj o)) as HqA
    by (intros o H; vm_compute in H; discriminate H).
  assert (fit 0%nat X0 y0 w_enting = (Ok tt, w_enting_fitted)) as Hfit
    by (vm_compute; reflexivity).
  destruct (fit_clones_and_fits 0%nat X0 y0 w_enting)
    as (HA & _ & _ & Hinv & _).
  destruct (fit_clones_and_fits 0%nat X0 y0 w_misic) as (_ & HB & _).
  destruct (fit_clones_and_fits 0%nat X0 y_short w_misic)
    as (_ & _ & HsB & _).
  exact (conj HclsA (conj HcA (conj
    (HA 0%nat 1%nat 2%nat VNone (VList []) 1%nat 2%nat 2%nat
        HclsA HcA HpA eq_refl eq_refl eq_refl)
    (conj HclsB (conj HcB (conj
    (HB 0%nat 1%nat 2%nat (VInt 7) (VList [1])
        "{tree_info: []}" "{tree_info: []}" "{tree_info: []}"
        1%nat 2%nat 2%nat 2%nat 2%nat 2%nat
        HclsB HcB HpB eq_refl eq_refl eq_refl eq_refl eq_refl eq_refl
        eq_refl eq_refl)
    (conj
    (HsB 0%nat 2%nat (VInt 7) (VObj 1) (VList [1]) 1%nat 2%nat
         (Foreign "ValueError" "inconsistent numbers of samples") 2%nat
         HclsB HcB HpB eq_refl eq_refl eq_refl)
    (conj Hfit (Hinv w_enting_fitted HqA Hfit))))))))).
Defined.

(** The test double keeps the contract of [predict]. *)
Lemma double_predict_rows :
  (∀ r X e v e', est_predict r X e = (Ok v, e') → length v = length X) ∧
  (∀ s X sc e v e', std_predict s X sc e = (Ok v, e') → length v = length X).
Proof.
  split.
  - intros r X e v e' [= <- _]. apply length_map.
  - intros s X sc e v e' [= <- _]. apply length_map.
Defined.

(** C7, on the test double: predictions for one new row. *)
Lemma predict_after_fit_witness :
  (∀ r X e v e', est_predict r X e = (Ok v, e') → length v = length X) ∧
  (∀ s X sc e v e', std_predict s X sc e = (Ok v, e') → length v = length X) ∧
  fit 0%nat X0 y0 w_enting = (Ok tt, w_enting_fitted) ∧
  ∃ r std,
    attr w_enting_fitted 0%nat "regressor_" = Some r ∧
    attr w_enting_fitted 0%nat "std_estimator" = Some std ∧
    (∀ mean e1,
       est_predict r [[7%Q; 8%Q]] (ext w_enting_fitted) = (Ok mean, e1) →
       (predict 0%nat [[7%Q; 8%Q]] false true w_enting_fitted).1 =
         Ok (Mean mean) ∧
       length mean = length [[7%Q; 8%Q]] ∧
       ∀ sd e2,
         std_predict std [[7%Q; 8%Q]] true e1 = (Ok sd, e2) →
         (predict 0%nat [[7%Q; 8%Q]] true true w_enting_fitted).1 =
           Ok (MeanStd mean sd) ∧
         length sd = length mean) ∧
    (∀ return_std p,
       (predict 0%nat [[7%Q; 8%Q]] return_std true w_enting_fitted).1 = Ok p →
       match p with
       | Mean mean => return_std = false ∧ length mean = length [[7%Q; 8%Q]]
       | MeanStd mean sd =>
           return_std = true ∧ length mean = length [[7%Q; 8%Q]] ∧
           length sd = length mean
       end).
Proof.
  assert (fit 0%nat X0 y0 w_enting = (Ok tt, w_enting_fitted)) as Hfit
    by (vm_compute; reflexivity).
  destruct double_predict_rows as [Hp Hs].
  exact (conj Hp (conj Hs (conj Hfit
    (predict_after_fit_shape 0%nat X0 y0 w_enting w_enting_fitted
       [[7%Q; 8%Q]] true Hp Hs Hfit)))).
Defined.

(** C8 as the specification words it fails: with no collaborators the
    error is not a [ConfigurationError]. *)
Lemma fit_missing_not_ConfigurationError :
  attr w_bare 0%nat "base_estimator" = Some VNone ∧
  attr w_bare 0%nat "std_estimator" = Some VNone ∧
  ¬ raises_class (fit 0%nat X0 y0 w_bare).1 "ConfigurationError".
Proof.
  split_and!; [vm_compute; reflexivity..|].
  intros (e & He & Hcls). vm_compute in He.
  injection He as <-. discriminate Hcls.
Qed.

(** C8, on the test double: no base estimator, and a target vector one
    row short. *)
Lemma fit_missing_collaborator_witness :
  attr w_bare 0%nat "base_estimator" = Some VNone ∧
  fit 0%nat X0 y0 w_bare = (Raise (AttributeError "set_params"), w_bare) ∧
  configured w_misic 0%nat (VObj 0) (VInt 7) (VObj 1) (VList [1]) ∧
  est_fit (VObj 2) X0 y_short (passed_categorical (VList [1])) 2%nat =
    (Raise (Foreign "ValueError" "inconsistent numbers of samples"), 2%nat) ∧
  (MisicRegressor_fit 0%nat X0 y_short w_misic).1 =
    Raise (Foreign "ValueError" "inconsistent numbers of samples").
Proof.
  assert (attr w_bare 0%nat "base_estimator" = Some VNone) as Hb
    by (vm_compute; reflexivity).
  assert (configured w_misic 0%nat (VObj 0) (VInt 7) (VObj 1) (VList [1]))
    as Hc by (repeat split; vm_compute; reflexivity).
  assert (est_fit (VObj 2) X0 y_short (passed_categorical (VList [1])) 2%nat =
          (Raise (Foreign "ValueError" "inconsistent numbers of samples"),
           2%nat)) as Hf by reflexivity.
  pose proof (fit_missing_collaborator 0%nat X0 y0 w_bare) as (H1 & _).
  pose proof (fit_missing_collaborator 0%nat X0 y_short w_misic)
    as (_ & _ & _ & _ & _ & H6 & _).
  refine (conj Hb (conj (H1 Hb) (conj Hc (conj Hf _)))).
  exact (H6 (VObj 0) (VInt 7) (VObj 1) (VList [1]) 1%nat (VObj 2) 2%nat _
            2%nat Hc eq_refl eq_refl eq_refl Hf).
Defined.

(** C9, on the test double: each variant built on the other. *)
Lemma construct_asymmetric_witness :
  class_of w_misic 0%nat = Some MisicRegressor ∧
  class_of w_enting 0%nat = Some EntingRegressor ∧
  (let w' :=
     (new EntingRegressor (VAdapter 0) (VObj 5) VNone default_cat_idx
        w_misic).2 in
   attr w' 1%nat "base_estimator" = Some (VObj 0) ∧
   attr w' 1%nat "std_estimator" = Some (VObj 1)) ∧
  (let w' :=
     (new MisicRegressor (VAdapter 0) (VObj 5) VNone default_cat_idx
        w_enting).2 in
   attr w' 1%nat "base_estimator" = Some (VAdapter 0) ∧
   attr w' 1%nat "std_estimator" = Some (VObj 5)).
Proof.
  assert (class_of w_misic 0%nat = Some MisicRegressor) as Hm
    by (vm_compute; reflexivity).
  assert (class_of w_enting 0%nat = Some EntingRegressor) as He
    by (vm_compute; reflexivity).
  assert (attr w_misic 0%nat "base_estimator" = Some (VObj 0)) as Hb
    by (vm_compute; reflexivity).
  assert (attr w_misic 0%nat "std_estimator" = Some (VObj 1)) as Hs
    by (vm_compute; reflexivity).
  destruct (proj1 (construct_unwrap_asymmetric 0%nat (VObj 5) VNone
                     default_cat_idx w_misic) (VObj 0) (VObj 1) Hm Hb Hs)
    as (_ & _ & Hb1 & Hs1).
  destruct (proj2 (construct_unwrap_asymmetric 0%nat (VObj 5) VNone
                     default_cat_idx w_enting) He)
    as (_ & _ & Hb2 & Hs2).
  exact (conj Hm (conj He (conj (conj Hb1 Hs1) (conj Hb2 Hs2)))).
Defined.

(** C10, on the test double: the file after a [MisicRegressor] fit. *)
Lemma MisicRegressor_fit_writes_witness :
  class_of w_misic 0%nat = Some MisicRegressor ∧
  fit 0%nat X0 y0 w_misic = (Ok tt, w_misic_fitted) ∧
  ∃ b rs std cat r d od g,
    attr w_misic_fitted 0%nat "regressor_" = Some r ∧
    files w_misic_fitted =
      <["tree_dict_next.json" := json_dump d 4 false]> (files w_misic) ∧
    files w_misic_fitted !! "tree_dict_next.json" =
      Some (json_dump d 4 false) ∧
    calls w_misic_fitted =
      calls w_misic ++
      [ CallSetParams b (fit_kwargs rs); CallClone b;
        CallFit r X0 y0 (passed_categorical cat);
        CallDumpModel r;
        WriteFile "tree_dict_next.json" (json_dump d 4 false);
        CallOrderTreeModelDict d cat; CallGbmModel od;
        CallStdUpdate std X0 y0 (Some g) cat ].
Proof.
  assert (class_of w_misic 0%nat = Some MisicRegressor) as Hm
    by (vm_compute; reflexivity).
  assert (fit 0%nat X0 y0 w_misic = (Ok tt, w_misic_fitted)) as Hfit
    by (vm_compute; reflexivity).
  exact (conj Hm (conj Hfit
    (MisicRegressor_fit_writes_file 0%nat X0 y0 w_misic w_misic_fitted
       Hm Hfit))).
Defined.

(** * The further properties on the test double *)

Import DoubleMore.

(** X7, on a test double. *)
Lemma predict_std_missing_witness :
  attr w_no_std 0%nat "regressor_" = Some (VObj 2) ∧
  is_object (VObj 2) = true ∧
  attr w_no_std 0%nat "std_estimator" = Some VNone ∧
  is_object VNone = false ∧
  est_predict (VObj 2) X0 (ext w_no_std) = (Ok [0%Q; 0%Q; 0%Q], 2%nat) ∧
  predict 0%nat X0 true true w_no_std =
    (Raise (AttributeError "predict"),
     set_ext 2%nat (record (CallPredict (VObj 2) X0) w_no_std)).
Proof.
  assert (attr w_no_std 0%nat "regressor_" = Some (VObj 2)) as Hr
    by (vm_compute; reflexivity).
  assert (attr w_no_std 0%nat "std_estimator" = Some VNone) as Hs
    by (vm_compute; reflexivity).
  assert (est_predict (VObj 2) X0 (ext w_no_std) =
          (Ok [0%Q; 0%Q; 0%Q], 2%nat)) as Hp
    by (vm_compute; reflexivity).
  exact (conj Hr (conj eq_refl (conj Hs (conj eq_refl (conj Hp
    (predict_std_missing 0%nat X0 true w_no_std (VObj 2) VNone _ _
       Hr eq_refl Hs eq_refl Hp)))))).
Defined.

(** X1, on a test double. *)
Lemma fit_changes_only_regressor_witness :
  (∀ a, attr w_misic 0%nat "base_estimator" ≠ Some (VAdapter a)) ∧
  class_of (fit 0%nat X0 y0 w_misic).2 0%nat = class_of w_misic 0%nat ∧
  attr (fit 0%nat X0 y0 w_misic).2 0%nat "base_estimator" =
    attr w_misic 0%nat "base_estimator".
Proof.
  assert (∀ a, attr w_misic 0%nat "base_estimator" ≠ Some (VAdapter a))
    as Hbase by (intros a Ha; vm_compute in Ha; discriminate Ha).
  pose proof (fit_changes_only_regressor 0%nat X0 y0 w_misic Hbase)
    as Hframe.
  cbv zeta in Hframe. destruct Hframe as [Hc Ha].
  refine (conj Hbase (conj _ _)).
  - apply Hc.
  - apply Ha. right. discriminate.
Defined.

(** X2, on a test double. *)
Lemma EntingRegressor_fit_failed_fit_witness :
  configured w_enting 0%nat (VObj 0) VNone (VObj 1) (VList []) ∧
  est_fit (VObj 2) X0 y_short (passed_categorical (VList [])) 2%nat =
    (Raise (Foreign "ValueError" "inconsistent numbers of samples"), 2%nat) ∧
  let out := EntingRegressor_fit 0%nat X0 y_short w_enting in
  out.1 = Raise (Foreign "ValueError" "inconsistent numbers of samples") ∧
  attr out.2 0%nat "regressor_" = Some (VObj 2) ∧
  ext out.2 = 2%nat ∧
  calls out.2 =
    calls w_enting ++
    EntingRegressor_fit_calls (VObj 0) VNone (VObj 1) (VList []) (VObj 2)
      X0 y_short.
Proof.
  assert (configured w_enting 0%nat (VObj 0) VNone (VObj 1) (VList []))
    as Hc by (repeat split; vm_compute; reflexivity).
  assert (est_fit (VObj 2) X0 y_short (passed_categorical (VList [])) 2%nat =
          (Raise (Foreign "ValueError" "inconsistent numbers of samples"),
           2%nat)) as Hf by reflexivity.
  exact (conj Hc (conj Hf
    (EntingRegressor_fit_failed_fit 0%nat X0 y_short w_enting
       (VObj 0) VNone (VObj 1) (VList []) (VObj 2) 1%nat 2%nat 2%nat _ 2%nat
       Hc eq_refl eq_refl eq_refl eq_refl eq_refl Hf))).
Defined.

(** X3, on a test double. *)
Lemma MisicRegressor_fit_failed_fit_witness :
  configured w_misic 0%nat (VObj 0) (VInt 7) (VObj 1) (VList [1]) ∧
  est_fit (VObj 2) X0 y_short (passed_categorical (VList [1])) 2%nat =
    (Raise (Foreign "ValueError" "inconsistent numbers of samples"), 2%nat) ∧
  let out := MisicRegressor_fit 0%nat X0 y_short w_misic in
  out.1 = Raise (Foreign "ValueError" "inconsistent numbers of samples") ∧
  attr out.2 0%nat "regressor_" = Some (VObj 2) ∧
  files out.2 = files w_misic ∧
  calls out.2 =
    calls w_misic ++
    [ CallSetParams (VObj 0) (fit_kwargs (VInt 7)); CallClone (VObj 0);
      CallFit (VObj 2) X0 y_short (passed_categorical (VList [1])) ].
Proof.
  assert (configured w_misic 0%nat (VObj 0) (VInt 7) (VObj 1) (VList [1]))
    as Hc by (repeat split; vm_compute; reflexivity).
  assert (est_fit (VObj 2) X0 y_short (passed_categorical (VList [1])) 2%nat =
          (Raise (Foreign "ValueError" "inconsistent numbers of samples"),
           2%nat)) as Hf by reflexivity.
  exact (conj Hc (conj Hf
    (MisicRegressor_fit_failed_fit 0%nat X0 y_short w_misic
       (VObj 0) (VInt 7) (VObj 1) (VList [1]) (VObj 2) 1%nat 2%nat _ 2%nat
       Hc eq_refl eq_refl eq_refl Hf))).
Defined.

(** X4, on a test double. *)
Lemma fit_files_witness :
  class_of w_enting 0%nat = Some EntingRegressor ∧
  files (fit 0%nat X0 y0 w_enting).2 = files w_enting.
Proof.
  assert (class_of w_enting 0%nat = Some EntingRegressor) as Hc
    by (vm_compute; reflexivity).
  exact (conj Hc (proj2 (fit_files 0%nat X0 y0 w_enting) Hc)).
Defined.

(** X5, on a test double. *)
Lemma other_ops_frame_witness :
  let w' :=
    foldl (run_other 0%nat) w_misic_fitted
      [OpGetGbmModel; OpSetParams ∅; OpPredict X0 true false] in
  attr w' 0%nat "regressor_" = attr w_misic_fitted 0%nat "regressor_" ∧
  files w' !! "model.txt" = files w_misic_fitted !! "model.txt".
Proof.
  destruct (other_ops_frame 0%nat
              [OpGetGbmModel; OpSetParams ∅; OpPredict X0 true false]
              w_misic_fitted) as (_ & Ha & Hf).
  exact (conj (Ha 0%nat "regressor_") (Hf "model.txt" ltac:(discriminate))).
Defined.

(** X6, on a test double. *)
Lemma predict_mean_only_witness :
  attr w_no_std 0%nat "regressor_" = Some (VObj 2) ∧
  is_object (VObj 2) = true ∧
  let out := predict 0%nat X0 false true w_no_std in
  out.1 = Ok (Mean [0%Q; 0%Q; 0%Q]) ∧
  calls out.2 = calls w_no_std ++ [CallPredict (VObj 2) X0] ∧
  ext out.2 = 2%nat.
Proof.
  assert (attr w_no_std 0%nat "regressor_" = Some (VObj 2)) as Hr
    by (vm_compute; reflexivity).
  exact (conj Hr (conj eq_refl
    (predict_mean_only 0%nat X0 true w_no_std (VObj 2) Hr eq_refl))).
Defined.

(** X9, on a test double. *)
Lemma get_gbm_model_twice_witness :
  attr w_enting_fitted 0%nat "regressor_" = Some (VObj 2) ∧
  is_object (VObj 2) = true ∧
  booster_dump_model (VObj 2) (ext w_enting_fitted) =
    (Ok "{tree_info: []}", 2%nat) ∧
  fs_json_dump "tree_dict_next.json" "{tree_info: []}" 4 false 2%nat =
    (None, 2%nat) ∧
  let w1 := (get_gbm_model 0%nat w_enting_fitted).2 in
  let w2 := (get_gbm_model 0%nat w1).2 in
  files w2 =
    <["tree_dict_next.json" := "{tree_info: []}"]> (files w_enting_fitted) ∧
  files w2 !! "tree_dict_next.json" = Some "{tree_info: []}".
Proof.
  assert (attr w_enting_fitted 0%nat "regressor_" = Some (VObj 2)) as Hr
    by (vm_compute; reflexivity).
  assert (booster_dump_model (VObj 2) (ext w_enting_fitted) =
          (Ok "{tree_info: []}", 2%nat)) as Hd
    by (vm_compute; reflexivity).
  exact (conj Hr (conj eq_refl (conj Hd (conj eq_refl
    (get_gbm_model_twice 0%nat w_enting_fitted (VObj 2)
       "{tree_info: []}" "{tree_info: []}" 2%nat 2%nat 2%nat 2%nat
       Hr eq_refl Hd eq_refl eq_refl eq_refl))))).
Defined.

(** X10, on a test double. *)
Lemma new_frame_witness :
  let out :=
    new MisicRegressor (VAdapter 0) (VObj 5) (VInt 3) (VList [2])
      w_misic_fitted in
  out.1 = Ok 1%nat ∧
  attr out.2 0%nat "regressor_" = attr w_misic_fitted 0%nat "regressor_" ∧
  attr out.2 1%nat "random_state" = Some (VInt 3) ∧
  attr out.2 1%nat "cat_idx" = Some (VList [2]) ∧
  attr out.2 1%nat "regressor_" = None.
Proof.
  assert ((new MisicRegressor (VAdapter 0) (VObj 5) (VInt 3) (VList [2])
             w_misic_fitted).1 = Ok 1%nat) as Hnew
    by (vm_compute; reflexivity).
  destruct (new_frame MisicRegressor (VAdapter 0) (VObj 5) (VInt 3)
              (VList [2]) w_misic_fitted) as (_ & _ & _ & Hold & Hself).
  destruct (Hself 1%nat Hnew) as (_ & _ & Hrs & Hcat & Hreg).
  destruct (Hold 0%nat ltac:(vm_compute; lia)) as [_ Ha].
  exact (conj Hnew (conj (Ha "regressor_") (conj Hrs (conj Hcat Hreg)))).
Defined.

(** X11, on a test double. *)
Lemma wrapper_shares_base_estimator_witness :
  class_of w_misic 0%nat = Some MisicRegressor ∧
  subclass MisicRegressor EntingRegressor = true ∧
  attr w_misic 0%nat "base_estimator" = Some (VObj 0) ∧
  attr w_misic 0%nat "std_estimator" = Some (VObj 1) ∧
  let w' :=
    (new EntingRegressor (VAdapter 0) (VObj 5) VNone default_cat_idx
       w_misic).2 in
  (new EntingRegressor (VAdapter 0) (VObj 5) VNone default_cat_idx
     w_misic).1 = Ok 1%nat ∧
  attr w' 1%nat "std_estimator" = attr w' 0%nat "std_estimator" ∧
  set_params 1%nat {[ "num_leaves" := VInt 31 ]} w' =
    set_params 0%nat {[ "num_leaves" := VInt 31 ]} w'.
Proof.
  assert (class_of w_misic 0%nat = Some MisicRegressor) as Hc
    by (vm_compute; reflexivity).
  assert (attr w_misic 0%nat "base_estimator" = Some (VObj 0)) as Hb
    by (vm_compute; reflexivity).
  assert (attr w_misic 0%nat "std_estimator" = Some (VObj 1)) as Hs
    by (vm_compute; reflexivity).
  exact (conj Hc (conj eq_refl (conj Hb (conj Hs
    (wrapper_shares_base_estimator EntingRegressor MisicRegressor 0%nat
       (VObj 5) VNone default_cat_idx (VObj 0) (VObj 1) w_misic
       {[ "num_leaves" := VInt 31 ]} Hc eq_refl Hb Hs))))).
Defined.


(** X13, on a test double. *)
Lemma fitted_clone_is_used_witness :
  fit 0%nat X0 y0 w_enting = (Ok tt, w_enting_fitted) ∧
  ∃ (b rs r : value) e1 e2,
    attr w_enting 0%nat "base_estimator" = Some b ∧
    attr w_enting 0%nat "random_state" = Some rs ∧
    est_set_params b (fit_kwargs rs) (ext w_enting) = (Ok tt, e1) ∧
    sk_clone b e1 = (Ok r, e2) ∧
    (∀ X' (return_std scaled : bool),
       ∃ rest,
         calls (predict 0%nat X' return_std scaled w_enting_fitted).2 =
         calls w_enting_fitted ++ CallPredict r X' :: rest ∧
         ∀ recv X'', CallPredict recv X'' ∈ rest → False) ∧
    (∃ rest,
       calls (get_gbm_model 0%nat w_enting_fitted).2 =
       calls w_enting_fitted ++ CallDumpModel r :: rest).
Proof.
  assert (fit 0%nat X0 y0 w_enting = (Ok tt, w_enting_fitted)) as Hfit
    by (vm_compute; reflexivity).
  exact (conj Hfit
    (fitted_clone_is_used 0%nat X0 y0 w_enting w_enting_fitted Hfit)).
Defined.
